(** * oled_hello: host-status display daemon

    A shallow embedding of [src/app/oled_hello.py] and the properties of
    its text fitter, line formatter, metric samplers and supervising loop.

    Conventions of the embedding.
    - A Python [str] is a list of Unicode code points ([pystr]).
    - A Python [int] is a [Z].  A Python [float] is modelled by the
      rational it denotes ([Q]): values are finite, there is no signed
      zero, infinity or NaN, and [round(x, 1)] is the exact decimal.  The
      division [v/1000.0] of [read_temp_c] is the binary64 division
      ([fdiv]), since the decimal shown depends on it; the percentages are
      computed exactly, and what is proved of them (bounds, exceptions, the
      values 0.0 and 100.0) does not depend on binary rounding.
    - Pixel widths returned by [draw.textlength] are rationals, compared
      with [<=] and [>] as total orders.
    - [time.sleep] is an event of the trace; a negative length raises
      [ValueError].
    - Code that may raise returns a [result]; [try ... except Exception]
      is [catch].
    - The builtin parsers [int()] and [float()] are parameters of the
      functions that call them ([py_int], [py_float]); [dec_int] and
      [dec_float] are plain decimal instances used to run examples. *)

From Stdlib Require Import String Ascii.
From Stdlib Require Import List ZArith NArith QArith Qround Qabs Bool Lia Lqa.
Import ListNotations.

Local Open Scope Z_scope.

(** ** Strings *)

Definition char := N.
Definition pystr := list char.

(** An ASCII literal of the source as a [pystr]. *)
Fixpoint lit (s : string) : pystr :=
  match s with
  | EmptyString => []
  | String a r => N_of_ascii a :: lit r
  end.

(** U+2026 HORIZONTAL ELLIPSIS, the one-character string appended by [fit]. *)
Definition ellipsis : pystr := [8230%N].
(** U+00B0 DEGREE SIGN. *)
Definition degree : pystr := [176%N].

Definition str_eqb (a b : pystr) : bool :=
  if list_eq_dec N.eq_dec a b then true else false.

(** Truthiness of a Python string: non-empty. *)
Definition truthy (s : pystr) : bool :=
  match s with [] => false | _ :: _ => true end.

(** ** TextFitter: [fit] *)

Section Fit.
(** [draw.textlength(., font=font)] *)
Variable measure : pystr -> Q.
Variable max_w : Q.

Definition fits (s : pystr) : bool := Qle_bool (measure s) max_w.

(** The loop
    [while alt and draw.textlength(alt + "…") > max_w: alt = alt[:-1]].
    [fuel] bounds the number of iterations; [length alt] is enough
    ([shrink_fuel_enough]). *)
Fixpoint shrink (fuel : nat) (alt : pystr) : pystr :=
  match fuel with
  | O => alt
  | S k =>
      if truthy alt && negb (fits (alt ++ ellipsis))
      then shrink k (removelast alt)
      else alt
  end.

Definition fit (text : pystr) : pystr :=
  if fits text then text
  else
    let alt := shrink (length text) text in
    if truthy alt then alt ++ ellipsis else firstn 1 text.

(** The exit condition of the [while] loop. *)
Definition loop_done (alt : pystr) : Prop :=
  alt = [] \/ fits (alt ++ ellipsis) = true.

(** The three possible outcomes of [fit]. *)
Inductive fit_outcome (text : pystr) : pystr -> Prop :=
| fit_unchanged :
    fits text = true -> fit_outcome text text
| fit_truncated (k : nat) :
    fits text = false -> (0 < k <= length text)%nat ->
    fits (firstn k text ++ ellipsis) = true ->
    fit_outcome text (firstn k text ++ ellipsis)
| fit_last_resort :
    fits text = false ->
    (forall k, (0 < k <= length text)%nat ->
               fits (firstn k text ++ ellipsis) = false) ->
    fit_outcome text (firstn 1 text).

End Fit.

Arguments fit_outcome measure max_w text _ : assert.

(** A measure under which every string is 200 pixels wide. *)
Definition const_measure_200 (_ : pystr) : Q := 200.

(** The property of [fit] as the specification words it: the result fits,
    or it is one character, the first one of [s], and that character
    followed by the ellipsis does not fit. *)
Definition fits_or_single_first_char
    (measure : pystr -> Q) (w : Q) (s : pystr) : Prop :=
  (measure (fit measure w s) <= w)%Q \/
  exists c r, s = c :: r /\ fit measure w s = [c] /\
              ~ (measure ([c] ++ ellipsis) <= w)%Q.

(** ** Number formatting *)

(** Round to the nearest integer, ties to the even one: what [round(x)]
    and the [.1f] conversion do. *)
Definition round_half_even (q : Q) : Z :=
  let f := Qfloor q in
  match (q - inject_Z f ?= 1 # 2)%Q with
  | Lt => f
  | Gt => f + 1
  | Eq => if Z.even f then f else f + 1
  end.

(** [round(x, 1)] *)
Definition round1 (x : Q) : Q := (inject_Z (round_half_even (x * 10)) / 10)%Q.

(** [round(x)] and [int(round(x))] *)
Definition py_round (x : Q) : Z := round_half_even x.

(** ** Binary64 division *)

Definition pow2 (k : Z) : Q := (2 ^ k)%Q.

(** The integer [l] with [2^l <= |q| < 2^(l+1)], for [q] other than 0. *)
Definition ilog2 (q : Q) : Z :=
  let l := Z.log2 (Z.abs (Qnum q)) - Z.log2 (Zpos (Qden q)) in
  if Qle_bool (pow2 l) (Qabs q) then l else l - 1.

(** The binary64 number nearest to [q], ties to the even significand: 53
    significant bits, exponents from -1074 up.  Values beyond the largest
    binary64 number are not cut off. *)
Definition to_double (q : Q) : Q :=
  let q := Qred q in
  if Qeq_bool q 0 then 0
  else
    let e := Z.max (ilog2 q - 52) (-1074) in
    Qred (inject_Z (round_half_even (q / pow2 e)) * pow2 e).

(** [a / b] on two floats. *)
Definition fdiv (a b : Q) : Q := to_double (a / b).

Fixpoint uint_digits (d : Decimal.uint) : pystr :=
  match d with
  | Decimal.Nil => []
  | Decimal.D0 r => 48%N :: uint_digits r
  | Decimal.D1 r => 49%N :: uint_digits r
  | Decimal.D2 r => 50%N :: uint_digits r
  | Decimal.D3 r => 51%N :: uint_digits r
  | Decimal.D4 r => 52%N :: uint_digits r
  | Decimal.D5 r => 53%N :: uint_digits r
  | Decimal.D6 r => 54%N :: uint_digits r
  | Decimal.D7 r => 55%N :: uint_digits r
  | Decimal.D8 r => 56%N :: uint_digits r
  | Decimal.D9 r => 57%N :: uint_digits r
  end.

Definition str_of_N (n : N) : pystr := uint_digits (N.to_uint n).

(** [str(n)] for an [int], as an f-string field renders it. *)
Definition str_of_int (z : Z) : pystr :=
  match z with
  | Zneg p => lit "-" ++ str_of_N (Npos p)
  | _ => str_of_N (Z.to_N z)
  end.

(** The f-string field [{x:.1f}]: sign, integer part, point, one digit,
    correctly rounded (ties to even). *)
Definition fmt_1f (x : Q) : pystr :=
  let n := round_half_even (Qabs x * 10) in
  (if Qle_bool 0 x then [] else lit "-")
    ++ str_of_N (Z.to_N (n / 10)) ++ lit "." ++ str_of_N (Z.to_N (n mod 10)).

(** ** Display / runtime configuration *)

Definition ADDR : Z := 60.
Definition WIDTH : Z := 128.
Definition HEIGHT : Z := 64.

(** The environment switches read at start-up.  [os.getenv] gives [None]
    for an unset variable. *)
Record config := {
  UPDATE_SECS : Q;
  MOUNT : pystr;
  IFACE : option pystr;
  HOST_IP : option pystr
}.

(** [if X:] for an optional string: set and non-empty. *)
Definition truthy_opt (o : option pystr) : bool :=
  match o with Some s => truthy s | None => false end.

(** ** LineFormatter: lines 127-152 of the main loop *)

(** The values sampled by one iteration. *)
Record snapshot := {
  ip : pystr;
  cpu : Q;
  temp : option Q;
  ram : Q;
  disk : Q
}.

Definition line1 (ip : pystr) : pystr := lit "IP: " ++ ip.

Definition base2 (cpu : Q) : pystr := lit "CPU:" ++ fmt_1f cpu ++ lit "%".

Definition line2_precise (cpu : Q) (temp : option Q) : pystr :=
  match temp with
  | Some t => base2 cpu ++ lit "  T:" ++ fmt_1f t ++ degree ++ lit "C"
  | None => base2 cpu
  end.

Definition line2_ints (cpu : Q) (temp : option Q) : pystr :=
  match temp with
  | Some t =>
      lit "CPU:" ++ str_of_int (py_round cpu) ++ lit "%  T:"
        ++ str_of_int (py_round t) ++ degree ++ lit "C"
  | None => base2 cpu
  end.

Definition line3 (ram : Q) : pystr := lit "RAM:" ++ fmt_1f ram ++ lit "%".

Definition line4 (mount : pystr) (disk : Q) : pystr :=
  lit "DISK(" ++ mount ++ lit "):" ++ fmt_1f disk ++ lit "%".

(** One [draw.text((x, y), text, ...)] call. *)
Record text_call := { at_x : Z; at_y : Z; text_of : pystr }.

Section Canvas.
Variable measure : pystr -> Q.

Definition max_w : Q := inject_Z WIDTH.

(** [l2 = line2_precise; if draw.textlength(l2) > max_w: l2 = line2_ints] *)
Definition choose_l2 (precise ints : pystr) : pystr :=
  if negb (fits measure max_w precise) then ints else precise.

(** The four [draw.text] calls of the [with canvas(device) as draw] block. *)
Definition canvas_block (mount : pystr) (s : snapshot) : list text_call :=
  let l2 := choose_l2 (line2_precise (cpu s) (temp s))
                      (line2_ints (cpu s) (temp s)) in
  [ {| at_x := 0; at_y := 0;  text_of := fit measure max_w (line1 (ip s)) |};
    {| at_x := 0; at_y := 14; text_of := fit measure max_w l2 |};
    {| at_x := 0; at_y := 28; text_of := fit measure max_w (line3 (ram s)) |};
    {| at_x := 0; at_y := 42;
       text_of := fit measure max_w (line4 mount (disk s)) |} ].

End Canvas.

(** ** Exceptions *)

Inductive exn := OSError | ValueError | IndexError | CalledProcessError.

Inductive result (A : Type) : Type :=
| Ok (a : A)
| Raise (e : exn).

Arguments Ok {A} a.
Arguments Raise {A} e.

Definition bind {A B : Type} (r : result A) (k : A -> result B) : result B :=
  match r with
  | Ok a => k a
  | Raise e => Raise e
  end.

Notation "x <- r ;; k" := (bind r (fun x => k))
  (at level 61, r at next level, right associativity).

(** [try: body / except Exception: handler] *)
Definition catch {A : Type} (body : result A) (handler : exn -> A) : A :=
  match body with
  | Ok a => a
  | Raise e => handler e
  end.

Fixpoint mapM {A B : Type} (f : A -> result B) (l : list A) : result (list B) :=
  match l with
  | [] => Ok []
  | a :: r => b <- f a ;; bs <- mapM f r ;; Ok (b :: bs)
  end.

(** [l[i]] for [0 <= i] *)
Definition index {A : Type} (l : list A) (i : nat) : result A :=
  match nth_error l i with
  | Some a => Ok a
  | None => Raise IndexError
  end.

(** ** String methods *)

(** [str.isspace] on one character: the Unicode white space that
    [split()] and [strip()] cut at. *)
Definition is_space (c : char) : bool :=
  ((9 <=? c) && (c <=? 13) || (28 <=? c) && (c <=? 32)
   || (c =? 133) || (c =? 160) || (c =? 5760)
   || (8192 <=? c) && (c <=? 8202)
   || (c =? 8232) || (c =? 8233) || (c =? 8239) || (c =? 8287)
   || (c =? 12288))%N.

Fixpoint split_ws_from (cur : pystr) (s : pystr) : list pystr :=
  match s with
  | [] => if truthy cur then [rev cur] else []
  | c :: r =>
      if is_space c
      then (if truthy cur then rev cur :: split_ws_from [] r
            else split_ws_from [] r)
      else split_ws_from (c :: cur) r
  end.

(** [s.split()] *)
Definition split_ws (s : pystr) : list pystr := split_ws_from [] s.

Fixpoint split_on_from (sep : char) (cur : pystr) (s : pystr) : list pystr :=
  match s with
  | [] => [rev cur]
  | c :: r =>
      if (c =? sep)%N then rev cur :: split_on_from sep [] r
      else split_on_from sep (c :: cur) r
  end.

(** [s.split(sep)] for a one-character separator. *)
Definition split_on (sep : char) (s : pystr) : list pystr :=
  split_on_from sep [] s.

Fixpoint lstrip (s : pystr) : pystr :=
  match s with
  | [] => []
  | c :: r => if is_space c then lstrip r else s
  end.

(** [s.strip()] *)
Definition strip (s : pystr) : pystr := rev (lstrip (rev (lstrip s))).

(** [s.startswith(p)] *)
Fixpoint startswith (s p : pystr) : bool :=
  match p, s with
  | [], _ => true
  | _ :: _, [] => false
  | b :: p', a :: s' => (a =? b)%N && startswith s' p'
  end.

(** [s.count(c)] for a one-character [c]. *)
Definition count_char (c : char) (s : pystr) : nat :=
  length (filter (N.eqb c) s).

(** [c in s] for a one-character [c]. *)
Definition contains_char (c : char) (s : pystr) : bool :=
  existsb (N.eqb c) s.

(** A line boundary of [str.splitlines], the pair CR LF apart. *)
Definition is_linebreak (c : char) : bool :=
  ((10 <=? c) && (c <=? 13) || (28 <=? c) && (c <=? 30)
   || (c =? 133) || (c =? 8232) || (c =? 8233))%N.

Fixpoint splitlines_from (cur : pystr) (s : pystr) : list pystr :=
  match s with
  | [] => if truthy cur then [rev cur] else []
  | c :: r =>
      if is_linebreak c then
        rev cur ::
          match r with
          | d :: r' =>
              if ((c =? 13) && (d =? 10))%N then splitlines_from [] r'
              else splitlines_from [] r
          | [] => splitlines_from [] r
          end
      else splitlines_from (c :: cur) r
  end.

(** [s.splitlines()] *)
Definition splitlines (s : pystr) : list pystr := splitlines_from [] s.

(** [s.replace(pat, rep)] for a non-empty [pat]: [skip] characters of a
    match just replaced are still to be passed over. *)
Fixpoint replace_from (pat rep : pystr) (skip : nat) (s : pystr) : pystr :=
  match s with
  | [] => []
  | c :: r =>
      match skip with
      | S k => replace_from pat rep k r
      | O =>
          if startswith s pat
          then rep ++ replace_from pat rep (length pat - 1) r
          else c :: replace_from pat rep 0 r
      end
  end.

Definition replace (pat rep : pystr) (s : pystr) : pystr :=
  replace_from pat rep 0 s.

(** ** The host as one loop iteration sees it *)

(** [shutil.disk_usage(path)]: of the counters of [statvfs], total is
    [f_blocks * f_frsize], used is [(f_blocks - f_bfree) * f_frsize] and
    free is [f_bavail * f_frsize]. *)
Record usage := { du_total : Z; du_used : Z; du_free : Z }.

(** Every read of the outside world made by one iteration of the main
    loop, with its outcome.  A file opened for iteration is the list of
    its lines; [Raise] is the exception of the call. *)
Record host := {
  proc_stat_first : result (list pystr);   (* /proc/stat, first read_stat() *)
  proc_stat_second : result (list pystr);  (* /proc/stat, 0.25 s later *)
  proc_meminfo : result (list pystr);      (* /proc/meminfo *)
  hwmon_glob : list pystr;     (* glob("/sys/class/hwmon/hwmon*/temp*_input") *)
  read_text : pystr -> result pystr;       (* open(p).read() *)
  vcgencmd : result pystr;     (* check_output("vcgencmd measure_temp") *)
  disk_usage : pystr -> result usage;
  ip_addr_show : pystr -> result pystr;
      (* check_output("ip -o -4 addr show dev IFACE scope global") *)
  ip_route_get : result pystr; (* check_output("ip route get 1.1.1.1") *)
  udp_source_addr : result pystr;
      (* connect(("8.8.8.8", 80)); getsockname()[0] *)
  canvas_flush : result unit   (* device.display(image) on leaving canvas *)
}.

(** ** MetricSource *)

(** The scan of [ip -o -4 addr show] output: the first token with a
    slash and three dots, up to its slash. *)
Definition is_cidr (p : pystr) : bool :=
  contains_char 47%N p && Nat.eqb (count_char 46%N p) 3.

Definition first_cidr (out : pystr) : option pystr :=
  match find is_cidr (concat (map split_ws (splitlines out))) with
  | Some p => Some (hd [] (split_on 47%N p))
  | None => None
  end.

(** [for i, t in enumerate(toks): if t == "src" and i + 1 < len(toks):
    return toks[i + 1]] *)
Fixpoint token_after_src (toks : list pystr) : option pystr :=
  match toks with
  | [] => None
  | t :: rest =>
      match rest with
      | next :: _ =>
          if str_eqb t (lit "src") then Some next else token_after_src rest
      | [] => token_after_src rest
      end
  end.

(** The string of a set variable. *)
Definition env_str (o : option pystr) : pystr :=
  match o with Some s => s | None => [] end.

(** The body of the [try] of [get_ip], lines 19-40. *)
Definition get_ip_body (cfg : config) (w : host) : result pystr :=
  if truthy_opt (HOST_IP cfg) then Ok (strip (env_str (HOST_IP cfg)))
  else
    found <- (if truthy_opt (IFACE cfg)
              then out <- ip_addr_show w (env_str (IFACE cfg)) ;;
                   Ok (first_cidr (strip out))
              else Ok None) ;;
    match found with
    | Some a => Ok a
    | None =>
        out <- ip_route_get w ;;
        match token_after_src (split_ws out) with
        | Some a => Ok a
        | None => udp_source_addr w
        end
    end.

Definition get_ip (cfg : config) (w : host) : pystr :=
  catch (get_ip_body cfg w) (fun _ => lit "0.0.0.0").

Section Samplers.
(** The builtins [int(x)] and [float(x)]; [Raise ValueError] when the
    text is not a number. *)
Variable py_int : pystr -> result Z.
Variable py_float : pystr -> result Q.

(** The first matching line of [read_stat]. *)
Definition parse_cpu_line (line : pystr) : result (Z * Z) :=
  parts <- mapM py_int (tl (split_ws line)) ;;
  p3 <- index parts 3 ;;
  p4 <- index parts 4 ;;
  Ok (p3 + p4, fold_right Z.add 0 parts).

Fixpoint read_stat_lines (lines : list pystr) : result (Z * Z) :=
  match lines with
  | [] => Ok (0, 0)
  | line :: rest =>
      if startswith line (lit "cpu ") then parse_cpu_line line
      else read_stat_lines rest
  end.

Definition read_stat (f : result (list pystr)) : result (Z * Z) :=
  lines <- f ;; read_stat_lines lines.

Definition cpu_usage_percent (w : host) : result Q :=
  r1 <- read_stat (proc_stat_first w) ;;
  r2 <- read_stat (proc_stat_second w) ;;
  let d_idle := fst r2 - fst r1 in
  let d_total := snd r2 - snd r1 in
  Ok (if 0 <? d_total
      then round1 (100 * (1 - inject_Z d_idle / inject_Z d_total))
      else 0)%Q.

(** [float(open(p).read().strip())] followed by the unit normalisation
    [v/1000.0 if v > 1000 else v], a binary64 division, and [round(., 1)]. *)
Definition read_sensor (w : host) (p : pystr) : result Q :=
  txt <- read_text w p ;;
  v <- py_float (strip txt) ;;
  Ok (round1 (if Qle_bool v 1000 then v else fdiv v 1000))%Q.

Fixpoint first_sensor (w : host) (paths : list pystr) : option Q :=
  match paths with
  | [] => None
  | p :: rest =>
      match read_sensor w p with
      | Ok t => Some t
      | Raise _ => first_sensor w rest
      end
  end.

Definition sensor_paths (w : host) : list pystr :=
  [ lit "/sys/class/thermal/thermal_zone0/temp";
    lit "/sys/class/hwmon/hwmon0/temp1_input";
    lit "/sys/class/hwmon/hwmon1/temp1_input" ] ++ hwmon_glob w.

Definition read_vcgencmd (w : host) : result Q :=
  out <- vcgencmd w ;;
  v <- py_float (replace (lit "'C") [] (replace (lit "temp=") [] (strip out))) ;;
  Ok (round1 v).

Definition read_temp_c (w : host) : option Q :=
  match first_sensor w (sensor_paths w) with
  | Some t => Some t
  | None => catch (t <- read_vcgencmd w ;; Ok (Some t)) (fun _ => None)
  end.

(** [mem[k] = v]: the newest binding goes first; [mem.get(k, d)] takes the
    first one found. *)
Fixpoint dict_get (mem : list (pystr * Z)) (k : pystr) (d : Z) : Z :=
  match mem with
  | [] => d
  | (k', v) :: rest => if str_eqb k' k then v else dict_get rest k d
  end.

Fixpoint parse_meminfo (mem : list (pystr * Z)) (lines : list pystr)
  : result (list (pystr * Z)) :=
  match lines with
  | [] => Ok mem
  | line :: rest =>
      match split_on 58%N line with
      | [k; v] =>
          tok <- index (split_ws (strip v)) 0 ;;
          n <- py_int tok ;;
          parse_meminfo ((strip k, n) :: mem) rest
      | _ => Raise ValueError
      end
  end.

Definition mem_usage_percent (w : host) : result Q :=
  lines <- proc_meminfo w ;;
  mem <- parse_meminfo [] lines ;;
  let total := dict_get mem (lit "MemTotal") 0 in
  let avail := dict_get mem (lit "MemAvailable") 0 in
  Ok (if total =? 0 then 0
      else round1 (100 * inject_Z (total - avail) / inject_Z total))%Q.

Definition disk_usage_percent (w : host) (path : pystr) : Q :=
  catch (du <- disk_usage w path ;;
         Ok (if du_total du =? 0 then 0
             else round1 (inject_Z (du_used du) / inject_Z (du_total du) * 100))%Q)
        (fun _ => 0%Q).

(** Lines 121-125: the five samples of one iteration. *)
Definition sample (cfg : config) (w : host) : result snapshot :=
  let ip := get_ip cfg w in
  cpu <- cpu_usage_percent w ;;
  let temp := read_temp_c w in
  ram <- mem_usage_percent w ;;
  let disk := disk_usage_percent w (MOUNT cfg) in
  Ok {| ip := ip; cpu := cpu; temp := temp; ram := ram; disk := disk |}.

End Samplers.

(** ** Plain decimal instances of the builtin parsers *)

Fixpoint dec_digits (acc : Z) (s : pystr) : result Z :=
  match s with
  | [] => Ok acc
  | c :: r =>
      if ((48 <=? c) && (c <=? 57))%N
      then dec_digits (10 * acc + Z.of_N (c - 48)) r
      else Raise ValueError
  end.

Definition dec_nat (s : pystr) : result Z :=
  match s with
  | [] => Raise ValueError
  | _ :: _ => dec_digits 0 s
  end.

(** [int(x)] on an optional sign and ASCII digits. *)
Definition dec_int (s : pystr) : result Z :=
  match s with
  | 45%N :: r => n <- dec_nat r ;; Ok (- n)
  | 43%N :: r => dec_nat r
  | _ => dec_nat s
  end.

Definition dec_unsigned (s : pystr) : result Q :=
  match split_on 46%N s with
  | [i] => n <- dec_nat i ;; Ok (inject_Z n)
  | [i; f] =>
      n <- dec_nat i ;;
      m <- dec_nat f ;;
      Ok (inject_Z n + inject_Z m / inject_Z (10 ^ Z.of_nat (length f)))%Q
  | _ => Raise ValueError
  end.

(** [float(x)] on an optional sign, ASCII digits and an optional
    fraction. *)
Definition dec_float (s : pystr) : result Q :=
  match s with
  | 45%N :: r => v <- dec_unsigned r ;; Ok (- v)%Q
  | 43%N :: r => dec_unsigned r
  | _ => dec_unsigned s
  end.

(** ** DisplaySession and the supervising loop *)

(** The device object returned by one successful [sh1106(...)] call. *)
Definition handle := nat.

Inductive message :=
| InitFailed (e : exn)   (* "I2C/OLED init failed, retrying in 5s:" *)
| LoopError (e : exn).   (* "Loop error (continuing):" and the traceback *)

(** What the process does that can be observed from outside. *)
Inductive event :=
| EvPrint (m : message)
| EvSleep (secs : Q)
| EvAcquire (h : handle)                       (* open_display() returned h *)
| EvDisplay (h : handle) (calls : list text_call)  (* frame flushed to h *)
| EvFault (h : handle).                        (* flushing to h raised *)

(** [open_display]: one element of [attempts] per pass through the
    [while True]; [None] when every listed attempt failed and the loop is
    still retrying. *)
Fixpoint open_display (attempts : list (result handle))
  : list event * option handle :=
  match attempts with
  | [] => ([], None)
  | Ok dev :: _ => ([EvAcquire dev], Some dev)
  | Raise e :: rest =>
      let (evs, r) := open_display rest in
      (EvPrint (InitFailed e) :: EvSleep 5 :: evs, r)
  end.

(** [time.sleep(secs)]: the sleep, or [ValueError] for a negative
    length. *)
Definition py_sleep (secs : Q) : result (list event) :=
  if Qle_bool 0 secs then Ok [EvSleep secs] else Raise ValueError.

(** The [except Exception] clause of the main loop, lines 156-159. *)
Definition loop_error (e : exn) : list event :=
  [EvPrint (LoopError e); EvSleep 2].

Section Supervisor.
Variable py_int : pystr -> result Z.
Variable py_float : pystr -> result Q.
Variable cfg : config.
(** [draw.textlength] with the font loaded at start-up. *)
Variable measure : pystr -> Q.

(** The [time.sleep(0.25)] inside [cpu_usage_percent] (line 55): it runs
    once the first [read_stat()] has returned. *)
Definition cpu_sample_sleep (w : host) : list event :=
  match read_stat py_int (proc_stat_first w) with
  | Ok _ => [EvSleep (1 # 4)]
  | Raise _ => []
  end.

(** [time.sleep(UPDATE_SECS)] after the frame (line 154): the sleep, or
    the except clause when the configured interval is negative. *)
Definition after_frame : list event :=
  match py_sleep (UPDATE_SECS cfg) with
  | Ok evs => evs
  | Raise e => loop_error e
  end.

(** One pass through the body of the main [while True]: the samples, the
    frame, and [time.sleep(UPDATE_SECS)], all inside the [try]. *)
Definition iteration (device : handle) (w : host) : list event :=
  cpu_sample_sleep w ++
  match sample py_int py_float cfg w with
  | Raise e => loop_error e
  | Ok s =>
      let calls := canvas_block measure (MOUNT cfg) s in
      match canvas_flush w with
      | Raise e => EvFault device :: loop_error e
      | Ok _ =>
          EvDisplay device calls :: after_frame
      end
  end.

(** The main loop over the successive states of the host.  The global
    [device] is read by every iteration and assigned by none. *)
Fixpoint main_loop (device : handle) (ws : list host) : list event :=
  match ws with
  | [] => []
  | w :: rest => iteration device w ++ main_loop device rest
  end.

(** Lines 116-159: acquire the display once, then loop. *)
Definition program (attempts : list (result handle)) (ws : list host)
  : list event :=
  match open_display attempts with
  | (evs, Some device) => evs ++ main_loop device ws
  | (evs, None) => evs
  end.

End Supervisor.

(** The behaviour a reconnecting supervisor would show: once a flush has
    faulted, the next use of a display ([EvDisplay] or [EvFault]) comes
    only after a new [EvAcquire]. *)
Fixpoint reacquires_after_fault (pending : bool) (tr : list event) : bool :=
  match tr with
  | [] => true
  | EvAcquire _ :: rest => reacquires_after_fault false rest
  | EvFault _ :: rest => negb pending && reacquires_after_fault true rest
  | EvDisplay _ _ :: rest => negb pending && reacquires_after_fault pending rest
  | _ :: rest => reacquires_after_fault pending rest
  end.

Definition is_acquire (e : event) : bool :=
  match e with EvAcquire _ => true | _ => false end.

Definition is_sleep (e : event) : bool :=
  match e with EvSleep _ => true | _ => false end.

(** The display an event talks to, when it talks to one. *)
Definition device_of (e : event) : option handle :=
  match e with
  | EvDisplay h _ | EvFault h => Some h
  | _ => None
  end.

(** ** Concrete hosts and snapshots used in examples *)

Definition nl : pystr := [10%N].

(** A host whose CPU counters advance from idle 100 / total 200 to idle
    110 / total 250, with 2000000 kB of memory of which 500000 kB are
    available, a quarter-full disk, no temperature sensor and a default
    route through 192.168.1.10. *)
Definition host_plain : host := {|
  proc_stat_first :=
    Ok [lit "cpu  60 0 40 90 10 0 0" ++ nl; lit "cpu0 60 0 40 90 10 0 0" ++ nl];
  proc_stat_second :=
    Ok [lit "cpu  90 0 50 95 15 0 0" ++ nl; lit "cpu0 90 0 50 95 15 0 0" ++ nl];
  proc_meminfo :=
    Ok [lit "MemTotal:        2000000 kB" ++ nl;
        lit "MemFree:          100000 kB" ++ nl;
        lit "MemAvailable:     500000 kB" ++ nl];
  hwmon_glob := [];
  read_text := fun _ => Raise OSError;
  vcgencmd := Raise CalledProcessError;
  disk_usage := fun _ => Ok {| du_total := 1000; du_used := 250; du_free := 750 |};
  ip_addr_show := fun _ => Raise CalledProcessError;
  ip_route_get :=
    Ok (lit "1.1.1.1 via 192.168.1.1 dev eth0 src 192.168.1.10 uid 0" ++ nl);
  udp_source_addr := Ok (lit "192.168.1.10");
  canvas_flush := Ok tt
|}.

(** [host_plain] with a thermal zone that reads 45600 millidegrees. *)
Definition host_with_sensor : host := {|
  proc_stat_first := proc_stat_first host_plain;
  proc_stat_second := proc_stat_second host_plain;
  proc_meminfo := proc_meminfo host_plain;
  hwmon_glob := [];
  read_text := fun p =>
    if str_eqb p (lit "/sys/class/thermal/thermal_zone0/temp")
    then Ok (lit "45600" ++ nl) else Raise OSError;
  vcgencmd := Raise CalledProcessError;
  disk_usage := disk_usage host_plain;
  ip_addr_show := ip_addr_show host_plain;
  ip_route_get := ip_route_get host_plain;
  udp_source_addr := udp_source_addr host_plain;
  canvas_flush := Ok tt
|}.

(** [host_plain] at a moment when the display does not answer on the
    bus. *)
Definition host_display_fault : host := {|
  proc_stat_first := proc_stat_first host_plain;
  proc_stat_second := proc_stat_second host_plain;
  proc_meminfo := proc_meminfo host_plain;
  hwmon_glob := [];
  read_text := read_text host_plain;
  vcgencmd := vcgencmd host_plain;
  disk_usage := disk_usage host_plain;
  ip_addr_show := ip_addr_show host_plain;
  ip_route_get := ip_route_get host_plain;
  udp_source_addr := udp_source_addr host_plain;
  canvas_flush := Raise OSError
|}.

(** [host_plain] without a readable /proc. *)
Definition host_no_proc : host := {|
  proc_stat_first := Raise OSError;
  proc_stat_second := Raise OSError;
  proc_meminfo := Raise OSError;
  hwmon_glob := [];
  read_text := read_text host_plain;
  vcgencmd := vcgencmd host_plain;
  disk_usage := disk_usage host_plain;
  ip_addr_show := ip_addr_show host_plain;
  ip_route_get := ip_route_get host_plain;
  udp_source_addr := udp_source_addr host_plain;
  canvas_flush := Ok tt
|}.

(** [host_plain] between two reads of /proc/stat across which the
    iowait counter fell from 200 to 180 while user time rose by 50. *)
Definition host_iowait_drop : host := {|
  proc_stat_first := Ok [lit "cpu  100 0 50 1000 200 0 0" ++ nl];
  proc_stat_second := Ok [lit "cpu  150 0 50 1001 180 0 0" ++ nl];
  proc_meminfo := proc_meminfo host_plain;
  hwmon_glob := [];
  read_text := read_text host_plain;
  vcgencmd := vcgencmd host_plain;
  disk_usage := disk_usage host_plain;
  ip_addr_show := ip_addr_show host_plain;
  ip_route_get := ip_route_get host_plain;
  udp_source_addr := udp_source_addr host_plain;
  canvas_flush := Ok tt
|}.

Definition cfg_default : config := {|
  UPDATE_SECS := 2; MOUNT := lit "/"; IFACE := None; HOST_IP := None
|}.

(** HOST_IP set with a space before and after the address. *)
Definition cfg_padded_override : config := {|
  UPDATE_SECS := 2; MOUNT := lit "/"; IFACE := None;
  HOST_IP := Some (lit " 10.0.0.5 ")
|}.

Definition cfg_iface (name : string) : config := {|
  UPDATE_SECS := 2; MOUNT := lit "/"; IFACE := Some (lit name); HOST_IP := None
|}.

Definition snapshot_sample : snapshot := {|
  ip := lit "192.168.1.10";
  cpu := 12.3; temp := Some 45.6%Q; ram := 75; disk := 25
|}.

(** A monospaced font, [px] pixels per character. *)
Definition mono (px : Z) (s : pystr) : Q := inject_Z (px * Z.of_nat (length s)).

(** The property of a frame as the specification words it: every text
    handed to [draw.text] is at most [WIDTH] pixels wide. *)
Definition all_lines_within_width
    (measure : pystr -> Q) (mount : pystr) (s : snapshot) : Prop :=
  Forall (fun call => (measure (text_of call) <= inject_Z WIDTH)%Q)
         (canvas_block measure mount s).

(** Tier 1 of [resolve_ip] as the specification words it: the configured
    override comes back verbatim. *)
Definition override_returned_verbatim (cfg : config) (w : host) : Prop :=
  forall h, HOST_IP cfg = Some h -> truthy h = true -> get_ip cfg w = h.

(** Tier 2 was not available, or ran to its end without an address. *)
Definition tier2_without_address (cfg : config) (w : host) : Prop :=
  truthy_opt (IFACE cfg) = false \/
  exists out, truthy_opt (IFACE cfg) = true /\
              ip_addr_show w (env_str (IFACE cfg)) = Ok out /\
              first_cidr (strip out) = None.

(** A percentage as the specification bounds it. *)
Definition in_percent_range (v : Q) : Prop := (0 <= v)%Q /\ (v <= 100)%Q.

(** ** Further hosts, configurations and trace measures *)

(** [host_plain] with other contents of /proc/stat at the two reads. *)
Definition host_with_stat (first second : result (list pystr)) : host := {|
  proc_stat_first := first;
  proc_stat_second := second;
  proc_meminfo := proc_meminfo host_plain;
  hwmon_glob := [];
  read_text := read_text host_plain;
  vcgencmd := vcgencmd host_plain;
  disk_usage := disk_usage host_plain;
  ip_addr_show := ip_addr_show host_plain;
  ip_route_get := ip_route_get host_plain;
  udp_source_addr := udp_source_addr host_plain;
  canvas_flush := Ok tt
|}.

(** [host_plain] with other contents of /proc/meminfo. *)
Definition host_with_meminfo (lines : result (list pystr)) : host := {|
  proc_stat_first := proc_stat_first host_plain;
  proc_stat_second := proc_stat_second host_plain;
  proc_meminfo := lines;
  hwmon_glob := [];
  read_text := read_text host_plain;
  vcgencmd := vcgencmd host_plain;
  disk_usage := disk_usage host_plain;
  ip_addr_show := ip_addr_show host_plain;
  ip_route_get := ip_route_get host_plain;
  udp_source_addr := udp_source_addr host_plain;
  canvas_flush := Ok tt
|}.

(** [host_plain] on a board without sensor files whose firmware utility
    answers [out]. *)
Definition host_with_vcgencmd (out : pystr) : host := {|
  proc_stat_first := proc_stat_first host_plain;
  proc_stat_second := proc_stat_second host_plain;
  proc_meminfo := proc_meminfo host_plain;
  hwmon_glob := [];
  read_text := read_text host_plain;
  vcgencmd := Ok out;
  disk_usage := disk_usage host_plain;
  ip_addr_show := ip_addr_show host_plain;
  ip_route_get := ip_route_get host_plain;
  udp_source_addr := udp_source_addr host_plain;
  canvas_flush := Ok tt
|}.

(** [host_plain] with an interface eth0 bound to 10.1.2.3/24. *)
Definition host_with_iface : host := {|
  proc_stat_first := proc_stat_first host_plain;
  proc_stat_second := proc_stat_second host_plain;
  proc_meminfo := proc_meminfo host_plain;
  hwmon_glob := [];
  read_text := read_text host_plain;
  vcgencmd := vcgencmd host_plain;
  disk_usage := disk_usage host_plain;
  ip_addr_show := fun _ =>
    Ok (lit "2: eth0    inet 10.1.2.3/24 brd 10.1.2.255 scope global eth0"
          ++ nl);
  ip_route_get := ip_route_get host_plain;
  udp_source_addr := udp_source_addr host_plain;
  canvas_flush := Ok tt
|}.

(** HOST_IP set to two spaces. *)
Definition cfg_blank_override : config := {|
  UPDATE_SECS := 2; MOUNT := lit "/"; IFACE := None;
  HOST_IP := Some (lit "  ")
|}.

(** A character of a plain decimal number: a digit, a point or a sign. *)
Definition is_number_char (c : char) : bool :=
  ((48 <=? c) && (c <=? 57) || (c =? 46) || (c =? 45) || (c =? 43))%N.

(** No line of the file starts with "cpu ". *)
Definition no_cpu_line (lines : list pystr) : Prop :=
  Forall (fun line => startswith line (lit "cpu ") = false) lines.

(** Seconds slept along a trace. *)
Fixpoint slept (tr : list event) : Q :=
  match tr with
  | [] => 0
  | EvSleep secs :: rest => secs + slept rest
  | _ :: rest => slept rest
  end.

Definition is_frame (e : event) : bool :=
  match e with EvDisplay _ _ => true | _ => false end.

Definition is_loop_error (e : event) : bool :=
  match e with EvPrint (LoopError _) => true | _ => false end.

(** [host_plain] with three mounts: "/full" with every block used,
    "/new" with none used, "/proc" of size zero; no other path exists. *)
Definition host_with_disks : host := {|
  proc_stat_first := proc_stat_first host_plain;
  proc_stat_second := proc_stat_second host_plain;
  proc_meminfo := proc_meminfo host_plain;
  hwmon_glob := [];
  read_text := read_text host_plain;
  vcgencmd := vcgencmd host_plain;
  disk_usage := fun p =>
    if str_eqb p (lit "/full")
    then Ok {| du_total := 4096; du_used := 4096; du_free := 0 |}
    else if str_eqb p (lit "/new")
    then Ok {| du_total := 4096; du_used := 0; du_free := 4096 |}
    else if str_eqb p (lit "/proc")
    then Ok {| du_total := 0; du_used := 0; du_free := 0 |}
    else Raise OSError;
  ip_addr_show := ip_addr_show host_plain;
  ip_route_get := ip_route_get host_plain;
  udp_source_addr := udp_source_addr host_plain;
  canvas_flush := Ok tt
|}.

(** [host_plain] with a /proc/meminfo that reports more memory available
    than in total. *)
Definition host_available_above_total : host :=
  host_with_meminfo (Ok [lit "MemTotal:         524288 kB" ++ nl;
                         lit "MemAvailable:     786432 kB" ++ nl]).

(** [host_plain] with a mount "/odd" whose file system counts more free
    blocks than blocks, so that the used space comes out negative. *)
Definition host_free_above_total : host := {|
  proc_stat_first := proc_stat_first host_plain;
  proc_stat_second := proc_stat_second host_plain;
  proc_meminfo := proc_meminfo host_plain;
  hwmon_glob := [];
  read_text := read_text host_plain;
  vcgencmd := vcgencmd host_plain;
  disk_usage := fun _ =>
    Ok {| du_total := 4096; du_used := -1024; du_free := 5120 |};
  ip_addr_show := ip_addr_show host_plain;
  ip_route_get := ip_route_get host_plain;
  udp_source_addr := udp_source_addr host_plain;
  canvas_flush := Ok tt
|}.

(** UPDATE_SECS=-1. *)
Definition cfg_negative_interval : config := {|
  UPDATE_SECS := -1; MOUNT := lit "/"; IFACE := None; HOST_IP := None
|}.



(** * Properties *)

(** ** The text fitter *)

Section FitFacts.
Variable measure : pystr -> Q.
Variable max_w : Q.

Local Abbreviation fits := (fits measure max_w).
Local Abbreviation shrink := (shrink measure max_w).
Local Abbreviation fit := (fit measure max_w).
Local Abbreviation loop_done := (loop_done measure max_w).
Local Abbreviation fit_outcome := (fit_outcome measure max_w).

Lemma truthy_false (s : pystr) : truthy s = false -> s = [].
Proof. destruct s; [reflexivity | discriminate]. Qed.

Lemma length_removelast (s : pystr) :
  s <> [] -> S (length (removelast s)) = length s.
Proof.
  induction s as [|c s IH]; [congruence|]; intros _.
  destruct s as [|d s]; [reflexivity|].
  change (removelast (c :: d :: s)) with (c :: removelast (d :: s)).
  cbn [length]. f_equal. apply IH. discriminate.
Qed.

(** With at least [length alt] units of fuel the loop has really
    stopped: the bound on the iterations is never what ends it. *)
Lemma shrink_fuel_enough (fuel : nat) :
  forall alt, (length alt <= fuel)%nat -> loop_done (shrink fuel alt).
Proof.
  induction fuel as [|k IH]; intros alt Hlen; simpl.
  - left. destruct alt; [reflexivity | simpl in Hlen; lia].
  - destruct (truthy alt) eqn:Ht; simpl.
    + destruct (fits (alt ++ ellipsis)) eqn:Hf; simpl.
      * right; exact Hf.
      * apply IH.
        assert (alt <> []) by (destruct alt; [discriminate | congruence]).
        pose proof (length_removelast alt H). lia.
    + left. now apply truthy_false.
Qed.

(** More fuel than [length alt] changes nothing. *)
Lemma shrink_fuel_irrelevant (fuel : nat) :
  forall alt, (length alt <= fuel)%nat ->
              shrink fuel alt = shrink (length alt) alt.
Proof.
  induction fuel as [|k IH]; intros alt Hlen.
  - destruct alt; [reflexivity | simpl in Hlen; lia].
  - destruct alt as [|c s]; [reflexivity|].
    assert (Hne : c :: s <> []) by discriminate.
    pose proof (length_removelast (c :: s) Hne) as Hrl.
    remember (removelast (c :: s)) as r eqn:Hr.
    cbn [length] in *. cbn [shrink]. rewrite <- Hr.
    destruct (truthy (c :: s) && negb (fits ((c :: s) ++ ellipsis)));
      [|reflexivity].
    injection Hrl as Hrl. rewrite <- Hrl.
    apply IH. lia.
Qed.

(** Every value of [alt] is a prefix of the text the loop started from. *)
Lemma removelast_firstn_length (s : pystr) :
  removelast s = firstn (length s - 1) s.
Proof.
  induction s as [|c s IH]; [reflexivity|].
  destruct s as [|d s]; [reflexivity|].
  change (removelast (c :: d :: s)) with (c :: removelast (d :: s)).
  rewrite IH. cbn [length].
  replace (S (S (length s)) - 1)%nat with (S (S (length s) - 1)) by lia.
  reflexivity.
Qed.

Lemma shrink_prefix (fuel : nat) :
  forall alt, exists k, (k <= length alt)%nat /\ shrink fuel alt = firstn k alt.
Proof.
  induction fuel as [|n IH]; intros alt; simpl.
  - exists (length alt). split; [lia | now rewrite firstn_all].
  - destruct (truthy alt && negb (fits (alt ++ ellipsis))).
    + destruct (IH (removelast alt)) as [k [Hk Hs]].
      rewrite Hs, removelast_firstn_length.
      rewrite removelast_firstn_length, length_firstn in Hk.
      exists k. split; [lia|].
      rewrite firstn_firstn. f_equal. lia.
    + exists (length alt). split; [lia | now rewrite firstn_all].
Qed.

(** The loop only stops at a non-empty [alt] that fits with the
    ellipsis, and it leaves [alt] empty only after having rejected every
    non-empty prefix. *)
Lemma shrink_rejects (fuel : nat) :
  forall alt, shrink fuel alt = [] ->
  forall k, (0 < k <= length alt)%nat -> (length alt <= fuel)%nat ->
            fits (firstn k alt ++ ellipsis) = false.
Proof.
  induction fuel as [|n IH]; intros alt Hs k Hk Hfuel.
  - lia.
  - simpl in Hs.
    destruct (truthy alt) eqn:Ht; simpl in Hs.
    2:{ apply truthy_false in Ht. subst alt. simpl in Hk. lia. }
    destruct (fits (alt ++ ellipsis)) eqn:Hf; simpl in Hs.
    { subst alt. discriminate. }
    assert (Hne : alt <> []) by (destruct alt; [discriminate | congruence]).
    pose proof (length_removelast alt Hne) as Hrl.
    destruct (Nat.eq_dec k (length alt)) as [->|Hneq].
    + now rewrite firstn_all.
    + assert (Hfk : firstn k (removelast alt) = firstn k alt).
      { rewrite removelast_firstn_length, firstn_firstn. f_equal. lia. }
      rewrite <- Hfk. apply IH; trivial; lia.
Qed.

Lemma fit_cases (text : pystr) : fit_outcome text (fit text).
Proof.
  unfold fit. destruct (fits text) eqn:Hfit.
  - now constructor.
  - destruct (truthy (shrink (length text) text)) eqn:Ht.
    + destruct (shrink_prefix (length text) text) as [k [Hk Hs]].
      pose proof (shrink_fuel_enough (length text) text (le_n _)) as Hdone.
      rewrite Hs in *.
      destruct Hdone as [He|Hf]; [rewrite He in Ht; discriminate|].
      apply fit_truncated; trivial.
      split; [|exact Hk].
      destruct k; [simpl in Ht; discriminate | lia].
    + apply truthy_false in Ht.
      apply fit_last_resort; trivial.
      intros k Hk. now apply (shrink_rejects (length text) text Ht k Hk).
Qed.

Lemma fit_fits_unchanged (text : pystr) : fits text = true -> fit text = text.
Proof. unfold fit; now intros ->. Qed.


End FitFacts.


(** [fit] on the empty string: the loop body never runs and [text[:1]] is
    empty again, whatever the measure says. *)
Lemma fit_nil (measure : pystr -> Q) (w : Q) : fit measure w [] = [].
Proof. unfold fit; simpl. now destruct (fits measure w []). Qed.

(** [fit] applied to a single character that does not fit, not even with
    the ellipsis. *)
Lemma fit_single_rejected (measure : pystr -> Q) (w : Q) (c : char) :
  fits measure w ([c] ++ ellipsis) = false -> fit measure w [c] = [c].
Proof.
  intros Hrej. unfold fit.
  destruct (fits measure w [c]); [reflexivity|].
  cbn [length shrink truthy andb]. rewrite Hrej. reflexivity.
Qed.

Lemma fits_true_iff (measure : pystr -> Q) (w : Q) (s : pystr) :
  fits measure w s = true <-> (measure s <= w)%Q.
Proof. apply Qle_bool_iff. Qed.

Lemma fits_false_iff (measure : pystr -> Q) (w : Q) (s : pystr) :
  fits measure w s = false <-> ~ (measure s <= w)%Q.
Proof.
  rewrite <- fits_true_iff. destruct (fits measure w s); split; congruence.
Qed.


(** Either the result of [fit] fits, or it is [text[:1]] and nothing
    non-empty fitted with the ellipsis. *)
Lemma fit_fits_or_last_resort (measure : pystr -> Q) (w : Q) (s : pystr) :
  fits measure w (fit measure w s) = true \/
  (fit measure w s = firstn 1 s /\
   forall k, (0 < k <= length s)%nat ->
             fits measure w (firstn k s ++ ellipsis) = false).
Proof.
  destruct (fit_cases measure w s) as [Hf | k Hn Hk Hf | Hn Hall].
  - left; exact Hf.
  - left; exact Hf.
  - right; split; [reflexivity | exact Hall].
Qed.

(** For a non-empty string the last resort is its first character, and it
    is taken only when that character followed by the ellipsis is too
    wide. *)
Lemma fit_cons (measure : pystr -> Q) (w : Q) (c : char) (r : pystr) :
  (measure (fit measure w (c :: r)) <= w)%Q \/
  (fit measure w (c :: r) = [c] /\ ~ (measure ([c] ++ ellipsis) <= w)%Q).
Proof.
  destruct (fit_fits_or_last_resort measure w (c :: r)) as [Hf | [He Hall]].
  - left. now apply fits_true_iff.
  - right. split; [exact He|].
    apply fits_false_iff. apply (Hall 1%nat). simpl; lia.
Qed.

(** C2: for every budget [w >= 1], every string [s] and every measuring
    function (one that gives the empty string the width 0), [fit] returns
    either a string whose measured width is at most [w], or the single
    first character of [s], the latter only when that character followed
    by the ellipsis does not fit. *)
Theorem fit_fits_or_single_first_char
    (measure : pystr -> Q) (w : Q) (s : pystr) :
  (1 <= w)%Q -> (measure [] == 0)%Q ->
  fits_or_single_first_char measure w s.
Proof.
  intros Hw Hempty. unfold fits_or_single_first_char.
  destruct s as [|c r].
  - left. rewrite fit_nil, Hempty. lra.
  - destruct (fit_cons measure w c r) as [Hle | [He Hrej]].
    + now left.
    + right. exists c, r. repeat split; assumption.
Qed.

(** Scenario D with a 21-pixel font on 40 pixels: the single first
    character, since "D" and the ellipsis take 42 pixels. *)
Lemma fit_fits_or_single_first_char_witness :
  fits_or_single_first_char (mono 21) 40 (lit "DISK(/mnt/data):100.0%").
Proof.
  apply fit_fits_or_single_first_char.
  - discriminate.
  - reflexivity.
Defined.

(** C8: [fit] is idempotent, for every string, budget and measuring
    function. *)
Theorem fit_idempotent (measure : pystr -> Q) (w : Q) (s : pystr) :
  fit measure w (fit measure w s) = fit measure w s.
Proof.
  destruct (fit_cases measure w s) as [Hf | k Hn Hk Hf | Hn Hall].
  - now apply fit_fits_unchanged.
  - now apply fit_fits_unchanged.
  - destruct s as [|c r].
    + apply fit_nil.
    + apply fit_single_rejected. apply (Hall 1%nat). simpl; lia.
Qed.

(** Scenario D of the specification, with a font under which one
    character and the ellipsis take 42 pixels of the 40 available: the
    result is the first character. *)
Example scenario_D :
  fit (mono 21) 40 (lit "DISK(/mnt/data):100.0%") = lit "D".
Proof. reflexivity. Qed.

(** With 19 pixels per character the same line is cut to one character
    and the ellipsis, 38 pixels. *)
Example scenario_D_38px :
  fit (mono 19) 40 (lit "DISK(/mnt/data):100.0%") = lit "D" ++ ellipsis.
Proof. reflexivity. Qed.

(** If the text fits it comes back unchanged. *)
Lemma fit_no_unnecessary_truncation (measure : pystr -> Q) (w : Q) (s : pystr) :
  (measure s <= w)%Q -> fit measure w s = s.
Proof. intros H. apply fit_fits_unchanged. now apply fits_true_iff. Qed.

(** [fit] measures at most [length s + 1] strings: once [s], then one
    candidate per iteration, and there are at most [length s] of them. *)
Lemma shrink_stops_within_length (measure : pystr -> Q) (w : Q) (s : pystr) :
  loop_done measure w (shrink measure w (length s) s).
Proof. apply shrink_fuel_enough. apply le_n. Qed.

(** ** The line formatter *)

Lemma line2_precise_starts_with_C (cpu : Q) (temp : option Q) :
  exists r, line2_precise cpu temp = 67%N :: r.
Proof. destruct temp; simpl; eexists; reflexivity. Qed.

Lemma line2_ints_starts_with_C (cpu : Q) (temp : option Q) :
  exists r, line2_ints cpu temp = 67%N :: r.
Proof. destruct temp; simpl; eexists; reflexivity. Qed.

Lemma choose_l2_starts_with_C (measure : pystr -> Q) (cpu : Q) (temp : option Q) :
  exists r,
    choose_l2 measure (line2_precise cpu temp) (line2_ints cpu temp) = 67%N :: r.
Proof.
  unfold choose_l2.
  destruct (negb (fits measure max_w (line2_precise cpu temp))).
  - apply line2_ints_starts_with_C.
  - apply line2_precise_starts_with_C.
Qed.

(** The text handed to [fit] for the CPU line, when temperature is
    present, in the words of the f-strings. *)
Lemma line2_precise_some (cpu t : Q) :
  line2_precise cpu (Some t)
  = lit "CPU:" ++ fmt_1f cpu ++ lit "%  T:" ++ fmt_1f t ++ degree ++ lit "C".
Proof.
  unfold line2_precise, base2. rewrite <- !app_assoc. reflexivity.
Qed.

(** C1, as amended: for every snapshot and every measuring function, each
    of the four texts handed to [draw.text] is at most [WIDTH] pixels
    wide, or it is the single first character of its line (I, C, R, D in
    this order) and that character followed by the ellipsis is wider than
    [WIDTH]. *)
Theorem frame_lines_within_width_or_first_char
    (measure : pystr -> Q) (mount : pystr) (s : snapshot) :
  Forall2
    (fun first call =>
       (measure (text_of call) <= inject_Z WIDTH)%Q \/
       (text_of call = [first] /\
        ~ (measure ([first] ++ ellipsis) <= inject_Z WIDTH)%Q))
    (lit "ICRD") (canvas_block measure mount s).
Proof.
  unfold canvas_block.
  destruct (choose_l2_starts_with_C measure (cpu s) (temp s)) as [r2 ->].
  cbn [lit]. unfold line1, line3, line4. cbn [lit app text_of].
  repeat (apply Forall2_cons; [cbn [text_of]; apply fit_cons|]).
  apply Forall2_nil.
Qed.

(** C1, as the specification states it, fails under a measure that makes
    every string 200 pixels wide: the first text drawn is then "I", 200
    pixels wide on a 128-pixel display. *)
Lemma wide_font_frame_counterexample :
  ~ all_lines_within_width const_measure_200 (lit "/") snapshot_sample.
Proof.
  intros H. inversion H as [|call rest Hle _]; subst.
  vm_compute in Hle. apply Hle. reflexivity.
Qed.

(** C3: with temperature present, the text drawn at row 14 is the precise
    line itself when it measures at most 128 pixels, and otherwise [fit]
    applied to the integer-rounded line; the precise line is never the
    one truncated. *)
Theorem cpu_temp_line_falls_back_to_integers
    (measure : pystr -> Q) (mount addr : pystr) (c t m d : Q) :
  let precise :=
    lit "CPU:" ++ fmt_1f c ++ lit "%  T:" ++ fmt_1f t ++ degree ++ lit "C" in
  let ints :=
    lit "CPU:" ++ str_of_int (py_round c) ++ lit "%  T:"
      ++ str_of_int (py_round t) ++ degree ++ lit "C" in
  nth_error
    (canvas_block measure mount
       {| ip := addr; cpu := c; temp := Some t; ram := m; disk := d |}) 1
  = Some {| at_x := 0; at_y := 14;
            text_of := if Qle_bool (measure precise) 128
                       then precise
                       else fit measure 128 ints |}.
Proof.
  intros precise ints. unfold canvas_block. cbn [nth_error cpu temp].
  rewrite line2_precise_some. fold precise.
  change (line2_ints c (Some t)) with ints.
  unfold choose_l2. change (fits measure max_w precise)
    with (Qle_bool (measure precise) 128).
  destruct (Qle_bool (measure precise) 128) eqn:Hfit; cbn [negb].
  - rewrite fit_fits_unchanged; [reflexivity | exact Hfit].
  - reflexivity.
Qed.

(** Scenario C of the specification: a font that renders the precise line
    wider than 128 pixels and the integer line within them. *)
Example scenario_C :
  map text_of (canvas_block (mono 7) (lit "/") snapshot_sample)
  = [ lit "IP: 192.168.1.10";
      lit "CPU:12%  T:46" ++ degree ++ lit "C";
      lit "RAM:75.0%";
      lit "DISK(/):25.0%" ].
Proof. vm_compute. reflexivity. Qed.

(** C10: without a temperature both variants of line 2 are the one string
    "CPU:" cpu "%" with one decimal, so the text drawn at row 14 is [fit]
    of that string whether or not it overflows: unchanged, or a prefix of
    it followed by the ellipsis, or its first character. *)
Theorem cpu_only_line_has_no_integer_tier
    (measure : pystr -> Q) (mount addr : pystr) (c m d : Q) :
  let line := lit "CPU:" ++ fmt_1f c ++ lit "%" in
  line2_precise c None = line /\
  line2_ints c None = line /\
  choose_l2 measure (line2_precise c None) (line2_ints c None) = line /\
  nth_error
    (canvas_block measure mount
       {| ip := addr; cpu := c; temp := None; ram := m; disk := d |}) 1
  = Some {| at_x := 0; at_y := 14; text_of := fit measure 128 line |} /\
  fit_outcome measure 128 line (fit measure 128 line).
Proof.
  intros line.
  assert (Hc : choose_l2 measure (line2_precise c None) (line2_ints c None)
               = line).
  { unfold choose_l2. cbn [line2_precise line2_ints].
    now destruct (negb (fits measure max_w (base2 c))). }
  repeat split; try reflexivity; try exact Hc.
  - unfold canvas_block. cbn [nth_error cpu temp]. now rewrite Hc.
  - apply fit_cases.
Qed.

(** ** Rounding *)

Lemma round_half_even_between (q : Q) (a b : Z) :
  (inject_Z a <= q)%Q -> (q <= inject_Z b)%Q ->
  a <= round_half_even q <= b.
Proof.
  intros Ha Hb. unfold round_half_even.
  pose proof (Qfloor_le q) as Hfl.
  assert (Hlo : a <= Qfloor q).
  { rewrite <- (Qfloor_Z a). now apply Qfloor_resp_le. }
  assert (Hhi : Qfloor q <= b).
  { rewrite <- (Qfloor_Z b). now apply Qfloor_resp_le. }
  assert (Hstep : (inject_Z (Qfloor q) < q)%Q -> Qfloor q + 1 <= b).
  { intros Hlt.
    assert (Hfb : (inject_Z (Qfloor q) < inject_Z b)%Q) by lra.
    rewrite <- Zlt_Qlt in Hfb. lia. }
  destruct (Qcompare_spec (q - inject_Z (Qfloor q)) (1 # 2)) as [He | Hl | Hg].
  - destruct (Z.even (Qfloor q)); [lia|].
    split; [lia|]. apply Hstep. lra.
  - lia.
  - split; [lia|]. apply Hstep. lra.
Qed.

(** [round(x, 1)] keeps a value inside an interval with integer ends. *)
Lemma round1_between (x : Q) (a b : Z) :
  (inject_Z a <= x)%Q -> (x <= inject_Z b)%Q ->
  (inject_Z a <= round1 x)%Q /\ (round1 x <= inject_Z b)%Q.
Proof.
  intros Ha Hb. unfold round1.
  assert (H10 : (inject_Z (10 * a) <= x * 10)%Q /\ (x * 10 <= inject_Z (10 * b))%Q).
  { rewrite !inject_Z_mult. change (inject_Z 10) with 10%Q. split; lra. }
  destruct H10 as [Hl Hu].
  destruct (round_half_even_between (x * 10) (10 * a) (10 * b) Hl Hu) as [Rl Ru].
  rewrite Zle_Qle in Rl, Ru. rewrite !inject_Z_mult in Rl, Ru.
  change (inject_Z 10) with 10%Q in Rl, Ru.
  set (r := inject_Z (round_half_even (x * 10))) in *.
  clearbody r. clear Hl Hu.
  assert (Hr : (r / 10 == r * (1 # 10))%Q) by (unfold Qdiv; reflexivity).
  rewrite Hr. split; lra.
Qed.

(** ** The metric samplers *)

Section SamplerFacts.
Variable py_int : pystr -> result Z.
Variable py_float : pystr -> result Q.

(** [cpu_usage_percent] in terms of the two readings. *)
Lemma cpu_usage_percent_of_readings (w : host) (i1 t1 i2 t2 : Z) :
  read_stat py_int (proc_stat_first w) = Ok (i1, t1) ->
  read_stat py_int (proc_stat_second w) = Ok (i2, t2) ->
  cpu_usage_percent py_int w
  = Ok (if 0 <? t2 - t1
        then round1 (100 * (1 - inject_Z (i2 - i1) / inject_Z (t2 - t1)))
        else 0)%Q.
Proof. intros H1 H2. unfold cpu_usage_percent. rewrite H1, H2. reflexivity. Qed.

(** No CPU line in /proc/stat, or counters that did not advance: 0.0. *)
Lemma cpu_usage_percent_zero_delta (w : host) (i1 t1 i2 t2 : Z) :
  read_stat py_int (proc_stat_first w) = Ok (i1, t1) ->
  read_stat py_int (proc_stat_second w) = Ok (i2, t2) ->
  t2 - t1 <= 0 ->
  cpu_usage_percent py_int w = Ok 0%Q.
Proof.
  intros H1 H2 Hd. rewrite (cpu_usage_percent_of_readings w i1 t1 i2 t2 H1 H2).
  destruct (Z.ltb_spec 0 (t2 - t1)); [lia | reflexivity].
Qed.

Lemma read_stat_without_cpu_line (lines : list pystr) :
  Forall (fun line => startswith line (lit "cpu ") = false) lines ->
  read_stat py_int (Ok lines) = Ok (0, 0).
Proof.
  intros H. unfold read_stat. cbn [bind].
  induction H as [|line rest Hl _ IH]; cbn [read_stat_lines].
  - reflexivity.
  - rewrite Hl. exact IH.
Qed.

(** A readable /proc/meminfo with a total of zero, or none: 0.0. *)
Lemma mem_usage_percent_zero_total (w : host) (lines : list pystr)
      (mem : list (pystr * Z)) :
  proc_meminfo w = Ok lines ->
  parse_meminfo py_int [] lines = Ok mem ->
  dict_get mem (lit "MemTotal") 0 = 0 ->
  mem_usage_percent py_int w = Ok 0%Q.
Proof.
  intros Hl Hm Ht. unfold mem_usage_percent. rewrite Hl. cbn [bind].
  rewrite Hm. cbn [bind]. rewrite Ht. reflexivity.
Qed.

Lemma ratio_between_0_and_1 (a b : Z) :
  0 <= a <= b -> 0 < b ->
  (0 <= inject_Z a / inject_Z b)%Q /\ (inject_Z a / inject_Z b <= 1)%Q.
Proof.
  intros [Ha Hab] Hb.
  assert (Hb' : (0 < inject_Z b)%Q) by (change 0%Q with (inject_Z 0); now rewrite <- Zlt_Qlt).
  assert (Ha' : (0 <= inject_Z a)%Q) by (change 0%Q with (inject_Z 0); now rewrite <- Zle_Qle).
  assert (Hab' : (inject_Z a <= inject_Z b)%Q) by now rewrite <- Zle_Qle.
  split.
  - apply Qle_shift_div_l; [exact Hb' | lra].
  - apply Qle_shift_div_r; [exact Hb' | lra].
Qed.

End SamplerFacts.

(** C7, as amended: [cpu_usage_percent] returns a value in [0, 100]
    whenever both reads of the counters succeed and, if the total
    advanced, the idle time advanced by no more than the total and did not
    go back; [mem_usage_percent] returns a value in [0, 100] whenever the
    records parse and 0 <= MemAvailable <= MemTotal; [disk_usage_percent]
    is in [0, 100] whenever the reported usage has 0 <= used <= total, and
    is 0.0 when the query fails. *)
Theorem percentages_in_range_for_consistent_sources
    (py_int : pystr -> result Z) (w : host) :
  (forall i1 t1 i2 t2,
      read_stat py_int (proc_stat_first w) = Ok (i1, t1) ->
      read_stat py_int (proc_stat_second w) = Ok (i2, t2) ->
      (0 < t2 - t1 -> 0 <= i2 - i1 <= t2 - t1) ->
      exists v, cpu_usage_percent py_int w = Ok v /\ in_percent_range v) /\
  (forall lines mem,
      proc_meminfo w = Ok lines ->
      parse_meminfo py_int [] lines = Ok mem ->
      0 <= dict_get mem (lit "MemAvailable") 0
        <= dict_get mem (lit "MemTotal") 0 ->
      exists v, mem_usage_percent py_int w = Ok v /\ in_percent_range v) /\
  (forall path,
      (forall du, disk_usage w path = Ok du ->
                  0 <= du_used du <= du_total du) ->
      in_percent_range (disk_usage_percent w path)) /\
  (forall path e,
      disk_usage w path = Raise e -> disk_usage_percent w path = 0%Q).
Proof.
  split; [|split; [|split]].
  - intros i1 t1 i2 t2 H1 H2 Hmono.
    rewrite (cpu_usage_percent_of_readings py_int w i1 t1 i2 t2 H1 H2).
    eexists; split; [reflexivity|].
    destruct (Z.ltb_spec 0 (t2 - t1)) as [Hpos|Hle].
    + destruct (ratio_between_0_and_1 (i2 - i1) (t2 - t1) (Hmono Hpos) Hpos)
        as [R0 R1].
      set (q := (inject_Z (i2 - i1) / inject_Z (t2 - t1))%Q) in *.
      clearbody q.
      apply (round1_between _ 0 100); change (inject_Z 0) with 0%Q;
        change (inject_Z 100) with 100%Q; lra.
    + split; discriminate.
  - intros lines mem Hl Hm [Ha Hat].
    unfold mem_usage_percent. rewrite Hl. cbn [bind]. rewrite Hm. cbn [bind].
    eexists; split; [reflexivity|].
    set (total := dict_get mem (lit "MemTotal") 0) in *.
    set (avail := dict_get mem (lit "MemAvailable") 0) in *.
    destruct (Z.eqb_spec total 0) as [Hz|Hnz]; [split; discriminate|].
    assert (Hpos : 0 < total) by lia.
    destruct (ratio_between_0_and_1 (total - avail) total) as [R0 R1];
      [lia | exact Hpos |].
    assert (Heq : (100 * inject_Z (total - avail) / inject_Z total
                   == 100 * (inject_Z (total - avail) / inject_Z total))%Q).
    { unfold Qdiv. ring. }
    set (q := (inject_Z (total - avail) / inject_Z total)%Q) in *.
    clearbody q.
    assert (Hb : (0 <= 100 * q)%Q /\ (100 * q <= 100)%Q) by (split; lra).
    rewrite <- Heq in Hb. destruct Hb as [Hb0 Hb1].
    apply (round1_between _ 0 100); assumption.
  - intros path Hdu. unfold disk_usage_percent.
    destruct (disk_usage w path) as [du|e] eqn:Hq; cbn [bind catch];
      [|split; discriminate].
    destruct (Z.eqb_spec (du_total du) 0) as [Hz|Hnz]; [split; discriminate|].
    destruct (Hdu du eq_refl) as [Hu Hut].
    destruct (ratio_between_0_and_1 (du_used du) (du_total du)) as [R0 R1];
      [lia | lia |].
    set (q := (inject_Z (du_used du) / inject_Z (du_total du))%Q) in *.
    clearbody q.
    apply (round1_between _ 0 100); change (inject_Z 0) with 0%Q;
      change (inject_Z 100) with 100%Q; lra.
  - intros path e Hq. unfold disk_usage_percent. now rewrite Hq.
Qed.

(** Scenarios A and B of the specification, and a disk a quarter full. *)
Example scenario_A_B :
  cpu_usage_percent dec_int host_plain = Ok (800 # 10) /\
  mem_usage_percent dec_int host_plain = Ok (750 # 10) /\
  disk_usage_percent host_plain (lit "/") = 250 # 10.
Proof. repeat split. Qed.

(** C7, as the specification states it, fails for each of the three
    samplers, none of which clamps its result.  When the iowait counter
    falls between the two reads the idle delta is negative and the CPU
    value is 161.3; a /proc/meminfo with more memory available than in
    total gives -50.0; a file system that counts more free blocks than
    blocks gives -25.0. *)
Lemma percentages_out_of_range_counterexample :
  (exists v, cpu_usage_percent dec_int host_iowait_drop = Ok v /\
             ~ in_percent_range v) /\
  (exists v, mem_usage_percent dec_int host_available_above_total = Ok v /\
             ~ in_percent_range v) /\
  ~ in_percent_range (disk_usage_percent host_free_above_total (lit "/odd")).
Proof.
  split; [|split].
  - exists (1613 # 10). split; [reflexivity|].
    intros [_ Hle]. vm_compute in Hle. apply Hle. reflexivity.
  - exists (-500 # 10). split; [reflexivity|].
    intros [Hge _]. vm_compute in Hge. apply Hge. reflexivity.
  - intros [Hge _]. vm_compute in Hge. apply Hge. reflexivity.
Qed.

(** The bounds at work on [host_plain]: 80.0, 75.0 and 25.0. *)
Lemma percentages_in_range_witness :
  (exists v, cpu_usage_percent dec_int host_plain = Ok v /\ in_percent_range v) /\
  (exists v, mem_usage_percent dec_int host_plain = Ok v /\ in_percent_range v) /\
  in_percent_range (disk_usage_percent host_plain (lit "/")) /\
  disk_usage_percent host_with_disks (lit "/missing") = 0%Q.
Proof.
  destruct (percentages_in_range_for_consistent_sources dec_int host_plain)
    as (Hcpu & Hmem & Hdisk & _).
  destruct (percentages_in_range_for_consistent_sources dec_int host_with_disks)
    as (_ & _ & _ & Hfail).
  split; [|split; [|split]].
  - apply (Hcpu 100 200 110 250); [reflexivity | reflexivity | lia].
  - eapply Hmem; [reflexivity | reflexivity | vm_compute; split; discriminate].
  - apply Hdisk. intros du Hdu. injection Hdu as <-. simpl. lia.
  - apply (Hfail (lit "/missing") OSError). reflexivity.
Defined.

(** An unreadable file is not turned into a default by the two samplers
    that open /proc themselves. *)
Lemma cpu_usage_percent_propagates (py_int : pystr -> result Z) (w : host) (e : exn) :
  proc_stat_first w = Raise e -> cpu_usage_percent py_int w = Raise e.
Proof. intros H. unfold cpu_usage_percent, read_stat. now rewrite H. Qed.

Lemma mem_usage_percent_propagates (py_int : pystr -> result Z) (w : host) (e : exn) :
  proc_meminfo w = Raise e -> mem_usage_percent py_int w = Raise e.
Proof. intros H. unfold mem_usage_percent. now rewrite H. Qed.

(** C4, where the code departs from it: on a host whose /proc/stat and
    /proc/meminfo cannot be opened, [cpu_usage_percent] and
    [mem_usage_percent] raise [OSError] to their caller instead of
    returning 0.0; the main loop catches it, prints and sleeps, and draws
    no frame. *)
Theorem unreadable_proc_raises_to_the_loop
    (py_int : pystr -> result Z) (py_float : pystr -> result Q)
    (cfg : config) (measure : pystr -> Q) (device : handle) :
  cpu_usage_percent py_int host_no_proc = Raise OSError /\
  mem_usage_percent py_int host_no_proc = Raise OSError /\
  sample py_int py_float cfg host_no_proc = Raise OSError /\
  iteration py_int py_float cfg measure device host_no_proc
  = [EvPrint (LoopError OSError); EvSleep 2].
Proof. repeat split. Qed.

(** A malformed record makes [mem_usage_percent] raise as well. *)
Example meminfo_line_without_colon :
  parse_meminfo dec_int [] [lit "MemTotal 2000000 kB" ++ nl] = Raise ValueError.
Proof. reflexivity. Qed.

(** ** IP resolution *)

Lemma get_ip_override (cfg : config) (w : host) :
  truthy_opt (HOST_IP cfg) = true ->
  get_ip cfg w = strip (env_str (HOST_IP cfg)).
Proof. intros H. unfold get_ip, get_ip_body. now rewrite H. Qed.

(** C6, as amended: [get_ip] always returns a string, and
    (1) a set, non-empty HOST_IP is returned with its surrounding white
        space stripped;
    (2) otherwise, with IFACE set and non-empty and the interface query
        answering, the first token with a slash and three dots is
        returned up to its slash;
    (3) otherwise, when tier 2 was unavailable or ended without such a
        token and the route query answers, the token after "src" is
        returned, and without one the UDP source address;
    (4) "0.0.0.0" when that last lookup fails. *)
Theorem get_ip_priority_order (cfg : config) (w : host) :
  (truthy_opt (HOST_IP cfg) = true ->
   get_ip cfg w = strip (env_str (HOST_IP cfg))) /\
  (truthy_opt (HOST_IP cfg) = false ->
   (forall out a,
       truthy_opt (IFACE cfg) = true ->
       ip_addr_show w (env_str (IFACE cfg)) = Ok out ->
       first_cidr (strip out) = Some a ->
       get_ip cfg w = a) /\
   (tier2_without_address cfg w ->
    forall out,
      ip_route_get w = Ok out ->
      (forall a, token_after_src (split_ws out) = Some a -> get_ip cfg w = a) /\
      (token_after_src (split_ws out) = None ->
       (forall a, udp_source_addr w = Ok a -> get_ip cfg w = a) /\
       (forall e, udp_source_addr w = Raise e -> get_ip cfg w = lit "0.0.0.0")))).
Proof.
  split; [apply get_ip_override|].
  intros Hno. unfold get_ip, get_ip_body. rewrite Hno. split.
  - intros out a Hif Hq Hc. rewrite Hif, Hq. cbn [bind]. rewrite Hc. reflexivity.
  - intros Ht2 out Hr.
    assert (Hfound :
              (if truthy_opt (IFACE cfg)
               then out0 <- ip_addr_show w (env_str (IFACE cfg)) ;;
                    Ok (first_cidr (strip out0))
               else Ok None) = Ok None).
    { destruct Ht2 as [Hif | (o & Hif & Hq & Hc)]; rewrite Hif.
      - reflexivity.
      - rewrite Hq. cbn [bind]. now rewrite Hc. }
    rewrite Hfound. cbn [bind]. rewrite Hr. cbn [bind]. split.
    + intros a Ha. now rewrite Ha.
    + intros Hnone. rewrite Hnone. split.
      * intros a Ha. now rewrite Ha.
      * intros e He. now rewrite He.
Qed.

(** The tiers at work: a padded override, and a host resolved through its
    default route. *)
Lemma get_ip_priority_order_witness :
  get_ip cfg_padded_override host_plain = lit "10.0.0.5" /\
  get_ip cfg_default host_plain = lit "192.168.1.10".
Proof.
  split.
  - apply (proj1 (get_ip_priority_order cfg_padded_override host_plain)).
    reflexivity.
  - destruct (get_ip_priority_order cfg_default host_plain) as [_ H].
    destruct (H eq_refl) as [_ H3].
    destruct (H3 (or_introl eq_refl) _ eq_refl) as [Hsrc _].
    apply Hsrc. reflexivity.
Defined.

(** C6, as the specification states it, fails at tier 1: an override set
    to " 10.0.0.5 " comes back as "10.0.0.5". *)
Lemma padded_override_counterexample :
  ~ override_returned_verbatim cfg_padded_override host_plain.
Proof.
  intros H. specialize (H _ eq_refl eq_refl). vm_compute in H. discriminate H.
Qed.

(** The interface query failing (here: no such device) ends the whole
    resolution: the route lookup, which would have answered
    192.168.1.10, is not made. *)
Example failed_interface_query_skips_route_lookup :
  get_ip (cfg_iface "eth9") host_plain = lit "0.0.0.0" /\
  get_ip cfg_default host_plain = lit "192.168.1.10".
Proof. split; reflexivity. Qed.

(** ** Temperature *)

Lemma first_sensor_none (py_float : pystr -> result Q) (w : host)
      (paths : list pystr) :
  (forall p, In p paths -> exists e, read_sensor py_float w p = Raise e) ->
  first_sensor py_float w paths = None.
Proof.
  induction paths as [|p rest IH]; intros Hall; [reflexivity|].
  cbn [first_sensor].
  destruct (Hall p (or_introl eq_refl)) as [e ->].
  apply IH. intros q Hq. apply Hall. now right.
Qed.

(** [read_temp_c] is absent exactly when every sensor path and the
    fallback utility fail. *)
Lemma read_temp_c_none_iff (py_float : pystr -> result Q) (w : host) :
  read_temp_c py_float w = None <->
  (forall p, In p (sensor_paths w) -> exists e, read_sensor py_float w p = Raise e)
  /\ (exists e, read_vcgencmd py_float w = Raise e).
Proof.
  unfold read_temp_c. split.
  - intros H.
    destruct (first_sensor py_float w (sensor_paths w)) eqn:Hs; [discriminate|].
    split.
    + clear H. induction (sensor_paths w) as [|q rest IH]; intros p Hin.
      * destruct Hin.
      * cbn [first_sensor] in Hs.
        destruct (read_sensor py_float w q) eqn:Hq; [discriminate|].
        destruct Hin as [<- | Hin]; [now exists e | now apply IH].
    + destruct (read_vcgencmd py_float w) as [t|e]; [discriminate | now exists e].
  - intros [Hall [e He]].
    rewrite (first_sensor_none py_float w _ Hall), He. reflexivity.
Qed.

(** C9: when every sensor path fails and the fallback utility fails too,
    [read_temp_c] returns [None], the snapshot of the iteration carries no
    temperature, and the line built for row 14 is exactly "CPU:" cpu "%"
    with one decimal: that string is what [fit] receives and what is
    drawn when it fits. *)
Theorem absent_temperature_omits_segment
    (py_int : pystr -> result Z) (py_float : pystr -> result Q)
    (cfg : config) (measure : pystr -> Q) (w : host) (s : snapshot) :
  (forall p, In p (sensor_paths w) ->
             exists e, read_sensor py_float w p = Raise e) ->
  (exists e, read_vcgencmd py_float w = Raise e) ->
  sample py_int py_float cfg w = Ok s ->
  read_temp_c py_float w = None /\
  temp s = None /\
  choose_l2 measure (line2_precise (cpu s) (temp s)) (line2_ints (cpu s) (temp s))
  = lit "CPU:" ++ fmt_1f (cpu s) ++ lit "%" /\
  nth_error (canvas_block measure (MOUNT cfg) s) 1
  = Some {| at_x := 0; at_y := 14;
            text_of := fit measure 128 (lit "CPU:" ++ fmt_1f (cpu s) ++ lit "%") |}.
Proof.
  intros Hall Hvc Hs.
  assert (Hnone : read_temp_c py_float w = None)
    by (apply read_temp_c_none_iff; now split).
  assert (Ht : temp s = None).
  { unfold sample in Hs.
    destruct (cpu_usage_percent py_int w); [|discriminate]. cbn [bind] in Hs.
    destruct (mem_usage_percent py_int w); [|discriminate]. cbn [bind] in Hs.
    injection Hs as <-. exact Hnone. }
  assert (Hc : choose_l2 measure (line2_precise (cpu s) (temp s))
                         (line2_ints (cpu s) (temp s))
               = lit "CPU:" ++ fmt_1f (cpu s) ++ lit "%").
  { rewrite Ht. unfold choose_l2. cbn [line2_precise line2_ints].
    now destruct (negb (fits measure max_w (base2 (cpu s)))). }
  repeat split; try assumption.
  unfold canvas_block. cbn [nth_error]. now rewrite Hc.
Qed.

(** [host_plain] has no sensor and no [vcgencmd]: its CPU line is
    "CPU:80.0%". *)
Lemma absent_temperature_witness :
  read_temp_c dec_float host_plain = None /\
  exists s, sample dec_int dec_float cfg_default host_plain = Ok s /\
            nth_error (canvas_block (mono 6) (lit "/") s) 1
            = Some {| at_x := 0; at_y := 14; text_of := lit "CPU:80.0%" |}.
Proof.
  destruct (absent_temperature_omits_segment dec_int dec_float cfg_default
              (mono 6) host_plain
              {| ip := lit "192.168.1.10"; cpu := 800 # 10; temp := None;
                 ram := 750 # 10; disk := 250 # 10 |})
    as (Hnone & _ & _ & Hrow).
  - intros p Hin. exists OSError.
    unfold read_sensor. reflexivity.
  - exists CalledProcessError. reflexivity.
  - reflexivity.
  - split; [exact Hnone|].
    eexists; split; [reflexivity | exact Hrow].
Defined.

(** ** The supervising loop *)

Section SupervisorFacts.
Variable py_int : pystr -> result Z.
Variable py_float : pystr -> result Q.
Variable cfg : config.
Variable measure : pystr -> Q.

Local Abbreviation iter := (iteration py_int py_float cfg measure).
Local Abbreviation loop := (main_loop py_int py_float cfg measure).

(** When the samples are there, the 0.25 s of the CPU sample were slept. *)
Lemma sample_slept (w : host) (s : snapshot) :
  sample py_int py_float cfg w = Ok s ->
  cpu_sample_sleep py_int w = [EvSleep (1 # 4)].
Proof.
  unfold sample, cpu_usage_percent, cpu_sample_sleep.
  destruct (read_stat py_int (proc_stat_first w)); [reflexivity | discriminate].
Qed.

(** An iteration that reaches the flush and faults there. *)
Lemma iteration_fault (device : handle) (w : host) (s : snapshot) (e : exn) :
  sample py_int py_float cfg w = Ok s ->
  canvas_flush w = Raise e ->
  iter device w
  = [EvSleep (1 # 4); EvFault device; EvPrint (LoopError e); EvSleep 2].
Proof.
  intros Hs Hf. unfold iteration.
  now rewrite (sample_slept w s Hs), Hs, Hf.
Qed.

(** An iteration whose frame is flushed. *)
Lemma iteration_frame (device : handle) (w : host) (s : snapshot) (u : unit) :
  sample py_int py_float cfg w = Ok s ->
  canvas_flush w = Ok u ->
  iter device w
  = EvSleep (1 # 4) :: EvDisplay device (canvas_block measure (MOUNT cfg) s)
      :: after_frame cfg.
Proof.
  intros Hs Hf. unfold iteration.
  now rewrite (sample_slept w s Hs), Hs, Hf.
Qed.

(** An iteration whose sampling raises. *)
Lemma iteration_sample_error (device : handle) (w : host) (e : exn) :
  sample py_int py_float cfg w = Raise e ->
  iter device w = cpu_sample_sleep py_int w ++ loop_error e.
Proof. intros Hs. unfold iteration. now rewrite Hs. Qed.

(** The shapes of one iteration: after the 0.25 s of the CPU sample, a
    frame and what follows it; or a display fault and the except clause;
    or, when sampling raised, the except clause alone. *)
Lemma iteration_cases (device : handle) (w : host) :
  (exists calls, iter device w
                 = EvSleep (1 # 4) :: EvDisplay device calls :: after_frame cfg) \/
  (exists e, iter device w = EvSleep (1 # 4) :: EvFault device :: loop_error e) \/
  (exists e, iter device w = cpu_sample_sleep py_int w ++ loop_error e).
Proof.
  destruct (sample py_int py_float cfg w) as [s|e] eqn:Hs.
  - destruct (canvas_flush w) as [u|e] eqn:Hf.
    + left. eexists. now apply (iteration_frame device w s u).
    + right; left. exists e. now apply (iteration_fault device w s e).
  - right; right. exists e. now apply iteration_sample_error.
Qed.

Lemma after_frame_cases :
  after_frame cfg = [EvSleep (UPDATE_SECS cfg)] \/
  after_frame cfg = loop_error ValueError.
Proof.
  unfold after_frame, py_sleep.
  destruct (Qle_bool 0 (UPDATE_SECS cfg)); [now left | now right].
Qed.

Lemma cpu_sample_sleep_cases (w : host) :
  cpu_sample_sleep py_int w = [EvSleep (1 # 4)] \/ cpu_sample_sleep py_int w = [].
Proof.
  unfold cpu_sample_sleep.
  destruct (read_stat py_int (proc_stat_first w)); [now left | now right].
Qed.

(** Case analysis on the shape of the iteration on [w]. *)
Ltac iteration_shape device w :=
  let c := fresh "calls" in
  let e := fresh "e" in
  destruct (iteration_cases device w) as [[c ->] | [[e ->] | [e ->]]];
  [ destruct after_frame_cases as [-> | ->]
  | idtac
  | destruct (cpu_sample_sleep_cases w) as [-> | ->] ].

Lemma main_loop_app (device : handle) (ws1 ws2 : list host) :
  loop device (ws1 ++ ws2) = loop device ws1 ++ loop device ws2.
Proof.
  induction ws1 as [|w rest IH]; [reflexivity|].
  cbn [app main_loop]. now rewrite IH, app_assoc.
Qed.

Lemma main_loop_never_acquires (device : handle) (ws : list host) :
  filter is_acquire (loop device ws) = [].
Proof.
  induction ws as [|w rest IH]; [reflexivity|].
  cbn [main_loop]. rewrite filter_app, IH, app_nil_r.
  iteration_shape device w; reflexivity.
Qed.

Lemma main_loop_same_device (device : handle) (ws : list host) :
  Forall (fun e => forall h, device_of e = Some h -> h = device)
         (loop device ws).
Proof.
  induction ws as [|w rest IH]; [constructor|].
  cbn [main_loop]. apply Forall_app. split; [|exact IH].
  iteration_shape device w;
    repeat constructor; cbn [device_of]; intros h Hh; congruence.
Qed.

(** Every iteration sleeps at least once: the loop never spins. *)
Lemma main_loop_sleeps_each (device : handle) (ws : list host) :
  (length ws <= length (filter is_sleep (loop device ws)))%nat.
Proof.
  induction ws as [|w rest IH]; [apply le_n|].
  cbn [main_loop]. rewrite filter_app, length_app.
  iteration_shape device w; unfold loop_error;
    cbn [app filter is_sleep length]; lia.
Qed.

(** A fault while flushing the frame: the event, the log line, the 2 s
    sleep, and the loop carries on with the next state of the host. *)
Lemma main_loop_after_fault (device : handle) (w : host) (rest : list host)
      (s : snapshot) (e : exn) :
  sample py_int py_float cfg w = Ok s ->
  canvas_flush w = Raise e ->
  loop device (w :: rest)
  = EvSleep (1 # 4) :: EvFault device :: EvPrint (LoopError e) :: EvSleep 2
      :: loop device rest.
Proof.
  intros Hs Hf. cbn [main_loop].
  now rewrite (iteration_fault device w s e Hs Hf).
Qed.

Lemma open_display_acquires_at_most_once (attempts : list (result handle)) :
  (length (filter is_acquire (fst (open_display attempts))) <= 1)%nat.
Proof.
  induction attempts as [|[dev|e] rest IH]; cbn [open_display].
  - apply Nat.le_0_1.
  - apply le_n.
  - destruct (open_display rest) as [evs r]. exact IH.
Qed.

(** The whole program acquires a display at most once. *)
Lemma program_acquires_at_most_once (attempts : list (result handle))
      (ws : list host) :
  (length (filter is_acquire
             (program py_int py_float cfg measure attempts ws)) <= 1)%nat.
Proof.
  unfold program.
  pose proof (open_display_acquires_at_most_once attempts) as H.
  destruct (open_display attempts) as [evs [device|]]; cbn [fst] in H.
  - now rewrite filter_app, main_loop_never_acquires, app_nil_r.
  - exact H.
Qed.

End SupervisorFacts.

(** C5, as amended: a display is acquired at most once, before the main
    loop, and the loop itself never acquires one again.  Whenever, after
    any number of iterations, the flush of a frame faults, the loop prints
    the error, sleeps 2 s and goes on with the next state of the host,
    still with the handle it was started with; a frame flushed in any
    iteration, also one that follows a fault, goes to that same handle;
    nothing ends the loop, and every iteration sleeps at least once. *)
Theorem main_loop_keeps_its_device
    (py_int : pystr -> result Z) (py_float : pystr -> result Q)
    (cfg : config) (measure : pystr -> Q)
    (device : handle) (ws : list host) :
  let loop := main_loop py_int py_float cfg measure device in
  let trace := loop ws in
  filter is_acquire trace = [] /\
  Forall (fun e => forall h, device_of e = Some h -> h = device) trace /\
  (forall w rest s e,
      sample py_int py_float cfg w = Ok s ->
      canvas_flush w = Raise e ->
      loop (ws ++ w :: rest)
      = trace ++ EvSleep (1 # 4) :: EvFault device :: EvPrint (LoopError e)
                 :: EvSleep 2 :: loop rest) /\
  (forall w rest s u,
      sample py_int py_float cfg w = Ok s ->
      canvas_flush w = Ok u ->
      loop (ws ++ w :: rest)
      = trace ++ EvSleep (1 # 4)
                 :: EvDisplay device (canvas_block measure (MOUNT cfg) s)
                 :: after_frame cfg ++ loop rest) /\
  (forall ws', loop (ws ++ ws') = trace ++ loop ws') /\
  (length ws <= length (filter is_sleep trace))%nat /\
  (forall attempts,
      (length (filter is_acquire
                 (program py_int py_float cfg measure attempts ws)) <= 1)%nat).
Proof.
  intros loop trace. unfold trace, loop.
  split; [apply main_loop_never_acquires|].
  split; [apply main_loop_same_device|].
  split.
  { intros w rest s e Hs Hf. rewrite main_loop_app. f_equal.
    now apply (main_loop_after_fault py_int py_float cfg measure device w rest s e). }
  split.
  { intros w rest s u Hs Hf. rewrite main_loop_app. f_equal.
    cbn [main_loop].
    now rewrite (iteration_frame py_int py_float cfg measure device w s u Hs Hf). }
  split; [intros ws'; apply main_loop_app|].
  split; [apply main_loop_sleeps_each|].
  intros attempts. apply program_acquires_at_most_once.
Qed.

(** One fault, then a frame: both on the handle 0 the loop was started
    with. *)
Lemma main_loop_keeps_its_device_witness :
  main_loop dec_int dec_float cfg_default (mono 6) 0%nat
            [host_display_fault; host_plain]
  = EvSleep (1 # 4) :: EvFault 0%nat :: EvPrint (LoopError OSError) :: EvSleep 2
      :: main_loop dec_int dec_float cfg_default (mono 6) 0%nat [host_plain]
  /\ exists calls,
      main_loop dec_int dec_float cfg_default (mono 6) 0%nat [host_plain]
      = [EvSleep (1 # 4); EvDisplay 0%nat calls; EvSleep 2].
Proof.
  destruct (main_loop_keeps_its_device dec_int dec_float cfg_default (mono 6)
              0%nat []) as (_ & _ & Hfault & Hframe & _).
  split.
  - eapply (Hfault host_display_fault [host_plain]); reflexivity.
  - eexists. eapply (Hframe host_plain [] _ tt); reflexivity.
Defined.

(** C5, as the specification states it, fails on a run with one display
    fault: the frame after the fault is flushed to the handle acquired at
    start-up, and no acquisition lies between the two. *)
Lemma no_reacquire_counterexample :
  let trace := program dec_int dec_float cfg_default (mono 6)
                       [Ok 0%nat] [host_display_fault; host_plain] in
  reacquires_after_fault false trace = false /\
  map device_of trace
  = [None; None; Some 0%nat; None; None; None; Some 0%nat; None].
Proof. split; reflexivity. Qed.

(** A run without a fault passes the same test. *)
Example no_fault_no_reacquire_needed :
  reacquires_after_fault false
    (program dec_int dec_float cfg_default (mono 6)
             [Raise OSError; Ok 0%nat] [host_plain; host_no_proc; host_plain])
  = true.
Proof. reflexivity. Qed.

(** [open_display] returns as soon as one attempt succeeds, after a log
    line and a 5 s sleep for each failed one. *)
Lemma open_display_retries (failures : list exn) (device : handle)
      (later : list (result handle)) :
  open_display (map Raise failures ++ Ok device :: later)
  = (flat_map (fun e => [EvPrint (InitFailed e); EvSleep 5]) failures
       ++ [EvAcquire device],
     Some device).
Proof.
  induction failures as [|e rest IH]; [reflexivity|].
  cbn [map app open_display flat_map]. now rewrite IH.
Qed.

(** One full run: a failed initialisation, then a frame on a host with a
    thermal zone at 45.6 degrees. *)
Example run_with_sensor :
  program dec_int dec_float cfg_default (mono 6)
          [Raise OSError; Ok 1%nat] [host_with_sensor]
  = [ EvPrint (InitFailed OSError); EvSleep 5; EvAcquire 1%nat;
      EvSleep (1 # 4);
      EvDisplay 1%nat
        [ {| at_x := 0; at_y := 0;  text_of := lit "IP: 192.168.1.10" |};
          {| at_x := 0; at_y := 14;
             text_of := lit "CPU:80.0%  T:45.6" ++ degree ++ lit "C" |};
          {| at_x := 0; at_y := 28; text_of := lit "RAM:75.0%" |};
          {| at_x := 0; at_y := 42; text_of := lit "DISK(/):25.0%" |} ];
      EvSleep 2 ].
Proof. reflexivity. Qed.

(** With UPDATE_SECS=-1 the frame is flushed, [time.sleep] raises, and the
    except clause prints and sleeps its 2 s. *)
Example run_with_negative_interval :
  map is_frame
      (main_loop dec_int dec_float cfg_negative_interval (mono 6) 0%nat
                 [host_plain])
  = [false; true; false; false] /\
  filter is_loop_error
         (main_loop dec_int dec_float cfg_negative_interval (mono 6) 0%nat
                    [host_plain])
  = [EvPrint (LoopError ValueError)] /\
  (slept (main_loop dec_int dec_float cfg_negative_interval (mono 6) 0%nat
                    [host_plain])
   == 9 # 4)%Q.
Proof. repeat split. Qed.

(** * Further properties *)

(** ** The text fitter *)

(** The loop stops at the longest prefix that passes its test: every
    longer prefix was rejected. *)
Lemma shrink_longest (measure : pystr -> Q) (w : Q) (fuel : nat) :
  forall alt, (length alt <= fuel)%nat ->
  exists k, (k <= length alt)%nat /\
            shrink measure w fuel alt = firstn k alt /\
            forall j, (k < j <= length alt)%nat ->
                      fits measure w (firstn j alt ++ ellipsis) = false.
Proof.
  induction fuel as [|n IH]; intros alt Hlen.
  - exists (length alt). repeat split; [lia | cbn; now rewrite firstn_all | lia].
  - cbn [shrink].
    destruct (truthy alt) eqn:Ht; cbn [andb].
    2:{ exists (length alt). repeat split; [lia | now rewrite firstn_all | lia]. }
    destruct (fits measure w (alt ++ ellipsis)) eqn:Hf; cbn [negb].
    { exists (length alt). repeat split; [lia | now rewrite firstn_all | lia]. }
    assert (Hne : alt <> []) by (destruct alt; [discriminate | congruence]).
    pose proof (length_removelast alt Hne) as Hrl.
    destruct (IH (removelast alt)) as (k & Hk & Hs & Hrej); [lia|].
    assert (Hpre : forall j, (j <= length (removelast alt))%nat ->
                             firstn j (removelast alt) = firstn j alt).
    { intros j Hj. rewrite removelast_firstn_length, firstn_firstn.
      f_equal. lia. }
    exists k. repeat split.
    + lia.
    + rewrite Hs. now apply Hpre.
    + intros j Hj.
      destruct (Nat.eq_dec j (length alt)) as [-> | Hneq].
      * now rewrite firstn_all.
      * rewrite <- Hpre by lia. apply Hrej. lia.
Qed.

(** X1: [fit] leaves a text as it is exactly when the text fits, or is
    empty, or is a single character that does not fit even with the
    ellipsis; in every other case the result differs from the input. *)
Theorem fit_unchanged_iff (measure : pystr -> Q) (w : Q) (s : pystr) :
  fit measure w s = s <->
  fits measure w s = true \/ s = [] \/
  (exists c, s = [c] /\ fits measure w ([c] ++ ellipsis) = false).
Proof.
  split.
  - intros Heq.
    pose proof (fit_cases measure w s) as Hc. rewrite Heq in Hc.
    inversion Hc as [Hf | k Hn Hk Hf Hres | Hn Hall Hres].
    + now left.
    + rewrite Hres in Hf. congruence.
    + right. destruct s as [|c [|d r]].
      * now left.
      * right. exists c. split; [reflexivity|].
        apply (Hall 1%nat). simpl; lia.
      * discriminate Hres.
  - intros [Hf | [-> | (c & -> & Hrej)]].
    + now apply fit_fits_unchanged.
    + apply fit_nil.
    + now apply fit_single_rejected.
Qed.

(** X2: on a non-empty text [fit] returns a non-empty text with the same
    first character. *)
Theorem fit_keeps_first_character
    (measure : pystr -> Q) (w : Q) (c : char) (r : pystr) :
  exists tail, fit measure w (c :: r) = c :: tail.
Proof.
  destruct (fit_cases measure w (c :: r)) as [Hf | k Hn Hk Hf | Hn Hall].
  - now exists r.
  - destruct k as [|k]; [lia|]. cbn [firstn app]. eexists; reflexivity.
  - exists []. reflexivity.
Qed.

(** X3: when the text is too wide and some non-empty prefix fits together
    with the ellipsis, [fit] returns the longest such prefix followed by
    the ellipsis. *)
Theorem fit_keeps_longest_fitting_prefix
    (measure : pystr -> Q) (w : Q) (s : pystr) (k : nat) :
  fits measure w s = false ->
  (0 < k <= length s)%nat ->
  fits measure w (firstn k s ++ ellipsis) = true ->
  exists k0, (k <= k0 <= length s)%nat /\
             fit measure w s = firstn k0 s ++ ellipsis /\
             fits measure w (firstn k0 s ++ ellipsis) = true /\
             forall j, (k0 < j <= length s)%nat ->
                       fits measure w (firstn j s ++ ellipsis) = false.
Proof.
  intros Hn Hk Hfit.
  destruct (shrink_longest measure w (length s) s (le_n _))
    as (k0 & Hk0 & Hs & Hrej).
  assert (Hge : (k <= k0)%nat).
  { destruct (le_lt_dec k k0) as [Hle | Hlt]; [exact Hle|].
    rewrite (Hrej k) in Hfit by lia. discriminate. }
  pose proof (shrink_fuel_enough measure w (length s) s (le_n _)) as Hdone.
  rewrite Hs in Hdone.
  assert (Hne : truthy (firstn k0 s) = true).
  { destruct s as [|c r]; [simpl in Hk; lia|].
    destruct k0; [lia | reflexivity]. }
  exists k0. repeat split; try lia.
  - unfold fit. rewrite Hn. cbv zeta. rewrite Hs, Hne. reflexivity.
  - destruct Hdone as [He | Hf]; [rewrite He in Hne; discriminate | exact Hf].
  - exact Hrej.
Qed.

(** A 40-pixel line in a 6-pixel font: six characters and the ellipsis. *)
Lemma fit_keeps_longest_fitting_prefix_witness :
  exists k0, (1 <= k0 <= 13)%nat /\
             fit (mono 6) 40 (lit "DISK(/):25.0%")
             = firstn k0 (lit "DISK(/):25.0%") ++ ellipsis /\
             fits (mono 6) 40 (firstn k0 (lit "DISK(/):25.0%") ++ ellipsis) = true /\
             forall j, (k0 < j <= 13)%nat ->
                       fits (mono 6) 40 (firstn j (lit "DISK(/):25.0%") ++ ellipsis)
                       = false.
Proof.
  apply (fit_keeps_longest_fitting_prefix (mono 6) 40 (lit "DISK(/):25.0%") 1).
  - reflexivity.
  - simpl; lia.
  - reflexivity.
Defined.

(** ** The line formatter *)

(** X4: under a font in which each of "I", "C", "R" and "D" followed by
    the ellipsis is at most [WIDTH] pixels wide, every text of every frame
    is at most [WIDTH] pixels wide, whatever the snapshot and the mount
    path. *)
Theorem frame_within_width_when_initials_fit
    (measure : pystr -> Q) (mount : pystr) (s : snapshot) :
  (forall c, In c (lit "ICRD") ->
             (measure ([c] ++ ellipsis) <= inject_Z WIDTH)%Q) ->
  all_lines_within_width measure mount s.
Proof.
  intros Hinit. unfold all_lines_within_width, canvas_block.
  destruct (choose_l2_starts_with_C measure (cpu s) (temp s)) as [r2 ->].
  unfold line1, line3, line4. cbn [lit app].
  repeat (apply Forall_cons;
          [cbn [text_of];
           match goal with
           | |- (measure (fit measure _ (?c :: ?r)) <= _)%Q =>
               destruct (fit_cons measure max_w c r) as [Hle | [_ Hrej]];
               [exact Hle | exfalso; apply Hrej; apply Hinit; cbn; tauto]
           end|]).
  apply Forall_nil.
Qed.

(** The 6-pixel font on the 128-pixel display. *)
Lemma frame_within_width_witness :
  all_lines_within_width (mono 6) (lit "/mnt/a/rather/long/mount/point")
                         snapshot_sample.
Proof.
  apply frame_within_width_when_initials_fit.
  intros c _. vm_compute. discriminate.
Defined.

(** X5: with temperature present, a precise line that is too wide and an
    integer-rounded line that fits, row 14 shows the integer-rounded line
    unchanged, without ellipsis. *)
Theorem integer_line_drawn_unchanged
    (measure : pystr -> Q) (mount addr : pystr) (c t m d : Q) :
  let precise :=
    lit "CPU:" ++ fmt_1f c ++ lit "%  T:" ++ fmt_1f t ++ degree ++ lit "C" in
  let ints :=
    lit "CPU:" ++ str_of_int (py_round c) ++ lit "%  T:"
      ++ str_of_int (py_round t) ++ degree ++ lit "C" in
  ~ (measure precise <= 128)%Q ->
  (measure ints <= 128)%Q ->
  nth_error
    (canvas_block measure mount
       {| ip := addr; cpu := c; temp := Some t; ram := m; disk := d |}) 1
  = Some {| at_x := 0; at_y := 14; text_of := ints |}.
Proof.
  intros precise ints Hwide Hfit.
  unfold canvas_block. cbn [nth_error cpu temp].
  rewrite line2_precise_some. fold precise.
  change (line2_ints c (Some t)) with ints.
  unfold choose_l2.
  apply (fits_false_iff measure 128) in Hwide.
  change max_w with 128%Q. rewrite Hwide. cbn [negb].
  rewrite fit_fits_unchanged; [reflexivity | now apply fits_true_iff].
Qed.

(** The 7-pixel font: 19 characters are 133 pixels, 15 are 105. *)
Lemma integer_line_drawn_unchanged_witness :
  nth_error
    (canvas_block (mono 7) (lit "/")
       {| ip := lit "192.168.1.10"; cpu := 12.3; temp := Some 45.6%Q;
          ram := 75; disk := 25 |}) 1
  = Some {| at_x := 0; at_y := 14;
            text_of := lit "CPU:12%  T:46" ++ degree ++ lit "C" |}.
Proof.
  apply (integer_line_drawn_unchanged (mono 7) (lit "/") (lit "192.168.1.10")
           12.3 45.6 75 25).
  - vm_compute. intros H. apply H. reflexivity.
  - vm_compute. discriminate.
Defined.




(** ** IP resolution *)

(** X7: with no override, a query that raises ends the resolution with
    "0.0.0.0", whatever the later tiers would have answered: the
    interface query when IFACE is set, and the route query when tier 2
    was unavailable or found no address. *)
Theorem get_ip_failed_query_gives_placeholder
    (cfg : config) (w : host) (e : exn) :
  truthy_opt (HOST_IP cfg) = false ->
  (truthy_opt (IFACE cfg) = true /\
   ip_addr_show w (env_str (IFACE cfg)) = Raise e)
  \/ (tier2_without_address cfg w /\ ip_route_get w = Raise e) ->
  get_ip cfg w = lit "0.0.0.0".
Proof.
  intros Hno Hfail. unfold get_ip, get_ip_body. rewrite Hno.
  destruct Hfail as [[Hif Hq] | [Ht2 Hr]].
  - rewrite Hif, Hq. reflexivity.
  - destruct Ht2 as [Hif | (out & Hif & Hq & Hc)]; rewrite Hif.
    + cbn [bind]. rewrite Hr. reflexivity.
    + rewrite Hq. cbn [bind]. rewrite Hc, Hr. reflexivity.
Qed.

(** An interface that does not exist, on a host with a default route. *)
Lemma get_ip_failed_query_witness :
  get_ip (cfg_iface "eth9") host_plain = lit "0.0.0.0".
Proof.
  apply (get_ip_failed_query_gives_placeholder (cfg_iface "eth9") host_plain
           CalledProcessError).
  - reflexivity.
  - left. split; reflexivity.
Defined.

Lemma lstrip_all_space (s : pystr) :
  forallb is_space s = true -> lstrip s = [].
Proof.
  induction s as [|c r IH]; [reflexivity|].
  cbn [forallb lstrip]. intros H. apply andb_prop in H as [Hc Hr].
  rewrite Hc. now apply IH.
Qed.

(** X8: an override that is set but consists of white space only is
    returned as the empty string (line 1 then reads "IP: "); no other
    tier is consulted. *)
Theorem get_ip_blank_override (cfg : config) (w : host) (h : pystr) :
  HOST_IP cfg = Some h -> h <> [] -> forallb is_space h = true ->
  get_ip cfg w = [] /\ line1 (get_ip cfg w) = lit "IP: ".
Proof.
  intros Hh Hne Hsp.
  assert (Hget : get_ip cfg w = []).
  { rewrite get_ip_override.
    - rewrite Hh. cbn [env_str]. unfold strip.
      now rewrite (lstrip_all_space h Hsp).
    - rewrite Hh. destruct h; [congruence | reflexivity]. }
  split; [exact Hget | now rewrite Hget].
Qed.

Lemma get_ip_blank_override_witness :
  get_ip cfg_blank_override host_plain = [] /\
  line1 (get_ip cfg_blank_override host_plain) = lit "IP: ".
Proof.
  apply (get_ip_blank_override cfg_blank_override host_plain (lit "  ")).
  - reflexivity.
  - discriminate.
  - reflexivity.
Defined.

Lemma existsb_rev_false (f : char -> bool) (s : pystr) :
  existsb f s = false -> existsb f (rev s) = false.
Proof.
  intros H. induction s as [|c r IH]; [reflexivity|].
  cbn [existsb] in H. apply orb_false_elim in H as [Hc Hr].
  cbn [rev]. rewrite existsb_app, (IH Hr). cbn [existsb].
  now rewrite Hc.
Qed.

(** The first piece of [s.split(sep)] holds no separator. *)
Lemma split_on_from_head_clean (sep : char) (s : pystr) :
  forall cur, existsb (N.eqb sep) cur = false ->
              existsb (N.eqb sep) (hd [] (split_on_from sep cur s)) = false.
Proof.
  induction s as [|c r IH]; intros cur Hcur; cbn [split_on_from].
  - cbn [hd]. now apply existsb_rev_false.
  - destruct (N.eqb_spec c sep) as [-> | Hneq].
    + cbn [hd]. now apply existsb_rev_false.
    + apply IH. cbn [existsb]. rewrite Hcur, orb_false_r.
      apply N.eqb_neq. congruence.
Qed.

(** X9: the address [get_ip] takes from the interface query never
    contains a slash: the prefix length of the CIDR token is cut off. *)
Theorem get_ip_interface_address_has_no_slash
    (cfg : config) (w : host) (out a : pystr) :
  truthy_opt (HOST_IP cfg) = false ->
  truthy_opt (IFACE cfg) = true ->
  ip_addr_show w (env_str (IFACE cfg)) = Ok out ->
  first_cidr (strip out) = Some a ->
  get_ip cfg w = a /\ contains_char 47%N a = false.
Proof.
  intros Hno Hif Hq Hc. split.
  - unfold get_ip, get_ip_body. rewrite Hno, Hif, Hq. cbn [bind].
    now rewrite Hc.
  - unfold first_cidr in Hc.
    destruct (find is_cidr (concat (map split_ws (splitlines (strip out)))))
      as [p|]; [|discriminate].
    injection Hc as <-. unfold contains_char, split_on.
    now apply split_on_from_head_clean.
Qed.

Lemma get_ip_interface_address_witness :
  get_ip (cfg_iface "eth0") host_with_iface = lit "10.1.2.3" /\
  contains_char 47%N (lit "10.1.2.3") = false.
Proof.
  eapply (get_ip_interface_address_has_no_slash (cfg_iface "eth0")
            host_with_iface); reflexivity.
Defined.

(** ** CPU and memory *)

Section MoreSamplerFacts.
Variable py_int : pystr -> result Z.

Lemma read_stat_lines_skips (pre : list pystr) (rest : list pystr) :
  no_cpu_line pre ->
  read_stat_lines py_int (pre ++ rest) = read_stat_lines py_int rest.
Proof.
  intros H. induction H as [|line pre' Hl _ IH]; [reflexivity|].
  cbn [app read_stat_lines]. now rewrite Hl.
Qed.

Lemma parse_meminfo_app (pre rest : list pystr) :
  forall mem mem',
    parse_meminfo py_int mem pre = Ok mem' ->
    parse_meminfo py_int mem (pre ++ rest) = parse_meminfo py_int mem' rest.
Proof.
  induction pre as [|line pre' IH]; intros mem mem' H.
  - cbn in H. injection H as <-. reflexivity.
  - cbn [app parse_meminfo] in *.
    destruct (split_on 58%N line) as [|k [|v [|x l]]]; try discriminate.
    destruct (index (split_ws (strip v)) 0) as [tok|e]; [|discriminate].
    cbn [bind] in *.
    destruct (py_int tok) as [n|e]; [|discriminate].
    cbn [bind] in *. now apply IH.
Qed.

End MoreSamplerFacts.

(** X10: when both reads of /proc/stat succeed and the total CPU time did
    not advance between them (equal counters, counters that went back, or
    a file without any "cpu " line at either read), [cpu_usage_percent]
    returns 0.0. *)
Theorem cpu_usage_zero_without_progress
    (py_int : pystr -> result Z) (w : host) :
  (forall i1 t1 i2 t2,
      read_stat py_int (proc_stat_first w) = Ok (i1, t1) ->
      read_stat py_int (proc_stat_second w) = Ok (i2, t2) ->
      t2 <= t1 ->
      cpu_usage_percent py_int w = Ok 0%Q) /\
  (forall l1 l2,
      proc_stat_first w = Ok l1 -> proc_stat_second w = Ok l2 ->
      no_cpu_line l1 -> no_cpu_line l2 ->
      cpu_usage_percent py_int w = Ok 0%Q).
Proof.
  split.
  - intros i1 t1 i2 t2 H1 H2 Hle.
    apply (cpu_usage_percent_zero_delta py_int w i1 t1 i2 t2 H1 H2). lia.
  - intros l1 l2 H1 H2 Hn1 Hn2.
    apply (cpu_usage_percent_zero_delta py_int w 0 0 0 0).
    + rewrite H1. now apply read_stat_without_cpu_line.
    + rewrite H2. now apply read_stat_without_cpu_line.
    + lia.
Qed.

(** Identical counters at both reads, and an empty /proc/stat. *)
Lemma cpu_usage_zero_witness :
  cpu_usage_percent dec_int
    (host_with_stat (proc_stat_first host_plain) (proc_stat_first host_plain))
  = Ok 0%Q /\
  cpu_usage_percent dec_int (host_with_stat (Ok []) (Ok [lit "intr 1 2" ++ nl]))
  = Ok 0%Q.
Proof.
  split.
  - apply (proj1 (cpu_usage_zero_without_progress dec_int _) 100 200 100 200);
      [reflexivity | reflexivity | lia].
  - eapply (proj2 (cpu_usage_zero_without_progress dec_int _));
      [reflexivity | reflexivity | constructor |].
    constructor; [reflexivity | constructor].
Defined.

Lemma index_out_of_range {A : Type} (l : list A) (i : nat) :
  (length l <= i)%nat -> index l i = Raise IndexError.
Proof.
  intros H. unfold index.
  now rewrite (proj2 (nth_error_None l i) H).
Qed.

Lemma index_in_range {A : Type} (l : list A) (i : nat) :
  (i < length l)%nat -> exists a, index l i = Ok a.
Proof.
  intros H. unfold index.
  destruct (nth_error l i) as [a|] eqn:Hn; [now exists a|].
  apply nth_error_None in Hn. lia.
Qed.

(** X11: the first line of /proc/stat that starts with "cpu " decides the
    first reading, and when its counters all parse but are fewer than
    five, [cpu_usage_percent] raises [IndexError] instead of returning
    0.0. *)
Theorem cpu_line_with_few_counters_raises
    (py_int : pystr -> result Z) (w : host)
    (pre post : list pystr) (line : pystr) (parts : list Z) :
  proc_stat_first w = Ok (pre ++ line :: post) ->
  no_cpu_line pre ->
  startswith line (lit "cpu ") = true ->
  mapM py_int (tl (split_ws line)) = Ok parts ->
  (length parts < 5)%nat ->
  cpu_usage_percent py_int w = Raise IndexError.
Proof.
  intros Hf Hpre Hline Hparts Hlen.
  unfold cpu_usage_percent, read_stat. rewrite Hf. cbn [bind].
  rewrite (read_stat_lines_skips py_int pre _ Hpre).
  cbn [read_stat_lines]. rewrite Hline.
  unfold parse_cpu_line. rewrite Hparts. cbn [bind].
  destruct (le_lt_dec (length parts) 3) as [H3 | H3].
  - now rewrite (index_out_of_range parts 3 H3).
  - destruct (index_in_range parts 3 H3) as [p3 ->]. cbn [bind].
    rewrite (index_out_of_range parts 4); [reflexivity | lia].
Qed.

(** A "cpu" line with user, nice, system and idle only. *)
Lemma cpu_line_with_few_counters_witness :
  cpu_usage_percent dec_int
    (host_with_stat (Ok [lit "btime 17" ++ nl; lit "cpu  60 0 40 90" ++ nl])
                    (proc_stat_second host_plain))
  = Raise IndexError.
Proof.
  apply (cpu_line_with_few_counters_raises dec_int _
           [lit "btime 17" ++ nl] [] (lit "cpu  60 0 40 90" ++ nl)
           [60; 0; 40; 90]).
  - reflexivity.
  - constructor; [reflexivity | constructor].
  - reflexivity.
  - reflexivity.
  - simpl; lia.
Defined.

Lemma round_half_even_Qeq (x y : Q) :
  (x == y)%Q -> round_half_even x = round_half_even y.
Proof.
  intros H. unfold round_half_even.
  assert (Hf : Qfloor x = Qfloor y) by now rewrite H.
  rewrite Hf.
  assert (Hc : (x - inject_Z (Qfloor y) ?= 1 # 2)%Q
               = (y - inject_Z (Qfloor y) ?= 1 # 2)%Q) by now rewrite H.
  now rewrite Hc.
Qed.

Lemma round1_Qeq (x y : Q) : (x == y)%Q -> round1 x = round1 y.
Proof.
  intros H. unfold round1.
  rewrite (round_half_even_Qeq (x * 10) (y * 10)); [reflexivity|].
  now rewrite H.
Qed.

(** X12: when /proc/meminfo parses, MemTotal is positive and MemAvailable
    is missing (a kernel that does not report it) or zero,
    [mem_usage_percent] returns 100.0. *)
Theorem mem_usage_full_without_available
    (py_int : pystr -> result Z) (w : host)
    (lines : list pystr) (mem : list (pystr * Z)) :
  proc_meminfo w = Ok lines ->
  parse_meminfo py_int [] lines = Ok mem ->
  0 < dict_get mem (lit "MemTotal") 0 ->
  dict_get mem (lit "MemAvailable") 0 = 0 ->
  mem_usage_percent py_int w = Ok (1000 # 10).
Proof.
  intros Hl Hm Htot Hav.
  unfold mem_usage_percent. rewrite Hl. cbn [bind]. rewrite Hm. cbn [bind].
  rewrite Hav.
  set (total := dict_get mem (lit "MemTotal") 0) in *.
  destruct (Z.eqb_spec total 0) as [Hz | Hnz]; [lia|].
  f_equal.
  rewrite (round1_Qeq _ 100); [reflexivity|].
  rewrite Z.sub_0_r.
  assert (Hq : ~ (inject_Z total == 0)%Q).
  { intros Heq. apply Hnz. apply (inject_Z_injective total 0). exact Heq. }
  field. exact Hq.
Qed.

(** A /proc/meminfo with MemTotal and MemFree only. *)
Lemma mem_usage_full_witness :
  mem_usage_percent dec_int
    (host_with_meminfo (Ok [lit "MemTotal:        2000000 kB" ++ nl;
                            lit "MemFree:          100000 kB" ++ nl]))
  = Ok (1000 # 10).
Proof.
  eapply mem_usage_full_without_available.
  - reflexivity.
  - reflexivity.
  - vm_compute. reflexivity.
  - reflexivity.
Defined.

(** [s.split(sep)] has one piece more than [s] has separators. *)
Lemma split_on_from_length (sep : char) (s : pystr) :
  forall cur, length (split_on_from sep cur s) = S (count_char sep s).
Proof.
  unfold count_char.
  induction s as [|c r IH]; intros cur; cbn [split_on_from filter].
  - reflexivity.
  - rewrite (N.eqb_sym sep c).
    destruct (N.eqb c sep); cbn [length]; now rewrite IH.
Qed.

(** X13: a line of /proc/meminfo that does not hold exactly one colon (a
    blank line, a line with a time of day) makes [mem_usage_percent]
    raise [ValueError], whatever the lines after it hold, once the lines
    before it have parsed. *)
Theorem meminfo_line_without_single_colon_raises
    (py_int : pystr -> result Z) (w : host)
    (pre post : list pystr) (line : pystr) (mem : list (pystr * Z)) :
  proc_meminfo w = Ok (pre ++ line :: post) ->
  parse_meminfo py_int [] pre = Ok mem ->
  count_char 58%N line <> 1%nat ->
  mem_usage_percent py_int w = Raise ValueError.
Proof.
  intros Hl Hpre Hcount.
  unfold mem_usage_percent. rewrite Hl. cbn [bind].
  rewrite (parse_meminfo_app py_int pre (line :: post) [] mem Hpre).
  cbn [parse_meminfo].
  pose proof (split_on_from_length 58%N line []) as Hlen.
  fold (split_on 58%N line) in Hlen.
  destruct (split_on 58%N line) as [|k [|v [|x l]]]; try reflexivity.
  cbn [length] in Hlen. congruence.
Qed.

(** A blank line after the first record. *)
Lemma meminfo_blank_line_witness :
  mem_usage_percent dec_int
    (host_with_meminfo (Ok [lit "MemTotal:        2000000 kB" ++ nl; nl;
                            lit "MemAvailable:     500000 kB" ++ nl]))
  = Raise ValueError.
Proof.
  apply (meminfo_line_without_single_colon_raises dec_int _
           [lit "MemTotal:        2000000 kB" ++ nl]
           [lit "MemAvailable:     500000 kB" ++ nl] nl
           [(lit "MemTotal", 2000000)]).
  - reflexivity.
  - reflexivity.
  - vm_compute. discriminate.
Defined.

(** ** Temperature and disk *)

Lemma first_sensor_skips (py_float : pystr -> result Q) (w : host)
      (pre rest : list pystr) :
  (forall q, In q pre -> exists e, read_sensor py_float w q = Raise e) ->
  first_sensor py_float w (pre ++ rest) = first_sensor py_float w rest.
Proof.
  induction pre as [|q pre' IH]; intros Hall; [reflexivity|].
  cbn [app first_sensor].
  destruct (Hall q (or_introl eq_refl)) as [e ->].
  apply IH. intros q' Hq'. apply Hall. now right.
Qed.

(** X14: the first sensor path, in the order of the list, that can be read
    and parsed gives the temperature: a raw value above 1000 is divided by
    1000 in binary64, and the result is rounded to one decimal.  The later
    paths and the fallback utility have no influence. *)
Theorem first_readable_sensor_wins
    (py_float : pystr -> result Q) (w : host)
    (pre post : list pystr) (p txt : pystr) (v : Q) :
  sensor_paths w = pre ++ p :: post ->
  (forall q, In q pre -> exists e, read_sensor py_float w q = Raise e) ->
  read_text w p = Ok txt ->
  py_float (strip txt) = Ok v ->
  read_temp_c py_float w
  = Some (round1 (if Qle_bool v 1000 then v else fdiv v 1000)).
Proof.
  intros Hpaths Hpre Htxt Hv. unfold read_temp_c.
  rewrite Hpaths, (first_sensor_skips py_float w pre _ Hpre).
  cbn [first_sensor]. unfold read_sensor. rewrite Htxt. cbn [bind].
  rewrite Hv. reflexivity.
Qed.

(** A thermal zone at 45600 millidegrees. *)
Lemma first_readable_sensor_witness :
  read_temp_c dec_float host_with_sensor = Some (456 # 10).
Proof.
  apply (first_readable_sensor_wins dec_float host_with_sensor []
           [lit "/sys/class/hwmon/hwmon0/temp1_input";
            lit "/sys/class/hwmon/hwmon1/temp1_input"]
           (lit "/sys/class/thermal/thermal_zone0/temp")
           (lit "45600" ++ nl) 45600).
  - reflexivity.
  - intros q [].
  - reflexivity.
  - reflexivity.
Defined.

(** Readings whose thousandth lies halfway between two tenths: the
    binary64 quotient decides.  45150/1000.0 is just below 45.15 and
    shows as 45.1, where the exact quotient would round to 45.2; 45250
    shows as 45.2 either way. *)
Example sensor_reading_at_a_tie :
  read_sensor dec_float
    {| proc_stat_first := Raise OSError; proc_stat_second := Raise OSError;
       proc_meminfo := Raise OSError; hwmon_glob := [];
       read_text := fun _ => Ok (lit "45150" ++ nl);
       vcgencmd := Raise OSError; disk_usage := fun _ => Raise OSError;
       ip_addr_show := fun _ => Raise OSError; ip_route_get := Raise OSError;
       udp_source_addr := Raise OSError; canvas_flush := Ok tt |}
    (lit "/sys/class/thermal/thermal_zone0/temp")
  = Ok (451 # 10) /\
  round1 (fdiv 45250 1000) = 452 # 10 /\
  round1 (45150 / 1000) = 452 # 10.
Proof. repeat split. Qed.

Lemma is_number_char_not (c : char) :
  is_number_char c = true -> c <> 116%N /\ c <> 39%N.
Proof.
  unfold is_number_char. intros H.
  rewrite !orb_true_iff, andb_true_iff, !N.leb_le, !N.eqb_eq in H.
  split; lia.
Qed.

(** [.replace(pat, rep)] copies a stretch of text that holds no first
    character of [pat]. *)
Lemma replace_from_passes (a : char) (p rep t u : pystr) :
  Forall (fun c => c <> a) t ->
  replace_from (a :: p) rep 0 (t ++ u) = t ++ replace_from (a :: p) rep 0 u.
Proof.
  intros H. induction H as [|c r Hc _ IH]; [reflexivity|].
  cbn [app replace_from startswith].
  destruct (N.eqb_spec c a) as [Heq | _]; [contradiction|].
  cbn [andb]. now rewrite IH.
Qed.

Lemma number_text_avoids (t : pystr) :
  forallb is_number_char t = true ->
  Forall (fun c => c <> 116%N) t /\ Forall (fun c => c <> 39%N) t.
Proof.
  induction t as [|c r IH]; intros H; [split; constructor|].
  cbn [forallb] in H. apply andb_prop in H as [Hc Hr].
  destruct (is_number_char_not c Hc) as [Ht Hq].
  destruct (IH Hr) as [IHt IHq].
  split; constructor; assumption.
Qed.

(** [.replace("temp=", "")] removes a leading "temp=". *)
Lemma replace_temp_prefix_dropped (s : pystr) :
  replace_from (lit "temp=") [] 0 (lit "temp=" ++ s)
  = replace_from (lit "temp=") [] 0 s.
Proof. cbn. destruct s; reflexivity. Qed.

(** [.replace("temp=", "")] leaves a number and its unit alone. *)
Lemma replace_temp_passes (t : pystr) :
  Forall (fun c => c <> 116%N) t ->
  replace_from (lit "temp=") [] 0 (t ++ lit "'C") = t ++ lit "'C".
Proof.
  intros H.
  etransitivity;
    [exact (replace_from_passes 116%N (lit "emp=") [] t (lit "'C") H)|].
  reflexivity.
Qed.

(** [.replace("'C", "")] removes the unit after a number. *)
Lemma replace_unit_removed (t : pystr) :
  Forall (fun c => c <> 39%N) t ->
  replace_from (lit "'C") [] 0 (t ++ lit "'C") = t.
Proof.
  intros H.
  etransitivity;
    [exact (replace_from_passes 39%N (lit "C") [] t (lit "'C") H)|].
  apply app_nil_r.
Qed.

(** The text that [read_temp_c] hands to [float()] for an answer of the
    firmware utility in its usual form. *)
Lemma vcgencmd_text_cleaned (t : pystr) :
  forallb is_number_char t = true ->
  replace (lit "'C") [] (replace (lit "temp=") []
                           (strip (lit "temp=" ++ t ++ lit "'C" ++ nl)))
  = t.
Proof.
  intros Ht.
  assert (Hstrip : strip (lit "temp=" ++ t ++ lit "'C" ++ nl)
                   = lit "temp=" ++ t ++ lit "'C").
  { unfold strip.
    replace (lstrip (lit "temp=" ++ t ++ lit "'C" ++ nl))
      with (lit "temp=" ++ t ++ lit "'C" ++ nl) by reflexivity.
    rewrite !rev_app_distr.
    replace (lstrip (((rev nl ++ rev (lit "'C")) ++ rev t) ++ rev (lit "temp=")))
      with (((rev (lit "'C")) ++ rev t) ++ rev (lit "temp=")) by reflexivity.
    rewrite !rev_app_distr, !rev_involutive. reflexivity. }
  rewrite Hstrip. unfold replace.
  destruct (number_text_avoids t Ht) as [Hno_t Hno_q].
  rewrite replace_temp_prefix_dropped.
  rewrite (replace_temp_passes t Hno_t).
  now apply replace_unit_removed.
Qed.

(** X15: when no sensor path can be read and the firmware utility answers
    "temp=" number "'C" and a newline, [read_temp_c] is that number,
    rounded to one decimal (no division by 1000 on this path). *)
Theorem vcgencmd_fallback_reads_number
    (py_float : pystr -> result Q) (w : host) (t : pystr) (v : Q) :
  (forall p, In p (sensor_paths w) ->
             exists e, read_sensor py_float w p = Raise e) ->
  vcgencmd w = Ok (lit "temp=" ++ t ++ lit "'C" ++ nl) ->
  forallb is_number_char t = true ->
  py_float t = Ok v ->
  read_temp_c py_float w = Some (round1 v).
Proof.
  intros Hall Hout Ht Hv. unfold read_temp_c.
  rewrite (first_sensor_none py_float w _ Hall).
  unfold read_vcgencmd. rewrite Hout. cbn [bind].
  rewrite (vcgencmd_text_cleaned t Ht), Hv. reflexivity.
Qed.

(** A board without sensor files answering temp=45.6'C. *)
Lemma vcgencmd_fallback_witness :
  read_temp_c dec_float (host_with_vcgencmd (lit "temp=45.6'C" ++ nl))
  = Some (round1 (45 + 6 / 10)).
Proof.
  apply (vcgencmd_fallback_reads_number dec_float _ (lit "45.6")).
  - intros p _. exists OSError. reflexivity.
  - reflexivity.
  - reflexivity.
  - reflexivity.
Defined.

(** X16: [disk_usage_percent] never raises: a failed query and a
    file system of size zero both give 0.0, a file system with nothing
    used gives 0.0 and one with everything used gives 100.0. *)
Theorem disk_usage_extremes (w : host) (path : pystr) :
  (forall e, disk_usage w path = Raise e -> disk_usage_percent w path = 0%Q) /\
  (forall du, disk_usage w path = Ok du -> du_total du = 0 ->
              disk_usage_percent w path = 0%Q) /\
  (forall du, disk_usage w path = Ok du -> du_total du <> 0 ->
              du_used du = 0 -> disk_usage_percent w path = 0 # 10) /\
  (forall du, disk_usage w path = Ok du -> du_total du <> 0 ->
              du_used du = du_total du ->
              disk_usage_percent w path = 1000 # 10).
Proof.
  unfold disk_usage_percent. repeat split.
  - intros e ->. reflexivity.
  - intros du -> Hz. cbn [bind catch]. now rewrite Hz.
  - intros du -> Hnz Hu. cbn [bind catch].
    destruct (Z.eqb_spec (du_total du) 0) as [Hz|_]; [contradiction|].
    rewrite Hu. rewrite (round1_Qeq _ 0); [reflexivity|].
    unfold Qdiv. ring.
  - intros du -> Hnz Hu. cbn [bind catch].
    destruct (Z.eqb_spec (du_total du) 0) as [Hz|_]; [contradiction|].
    rewrite Hu. rewrite (round1_Qeq _ 100); [reflexivity|].
    assert (Hq : ~ (inject_Z (du_total du) == 0)%Q).
    { intros Heq. apply Hnz. apply (inject_Z_injective (du_total du) 0).
      exact Heq. }
    field. exact Hq.
Qed.

(** The four cases on a host with a full, a new and an empty mount. *)
Lemma disk_usage_extremes_witness :
  disk_usage_percent host_with_disks (lit "/missing") = 0%Q /\
  disk_usage_percent host_with_disks (lit "/proc") = 0%Q /\
  disk_usage_percent host_with_disks (lit "/new") = 0 # 10 /\
  disk_usage_percent host_with_disks (lit "/full") = 1000 # 10.
Proof.
  split; [|split; [|split]].
  - apply (proj1 (disk_usage_extremes host_with_disks (lit "/missing")) OSError).
    reflexivity.
  - eapply (proj1 (proj2 (disk_usage_extremes host_with_disks (lit "/proc"))));
      reflexivity.
  - eapply (proj1 (proj2 (proj2
              (disk_usage_extremes host_with_disks (lit "/new")))));
      [reflexivity | discriminate | reflexivity].
  - eapply (proj2 (proj2 (proj2
              (disk_usage_extremes host_with_disks (lit "/full")))));
      [reflexivity | discriminate | reflexivity].
Defined.

(** ** Display acquisition and the loop *)

(** X17: [open_display] keeps retrying: after any number of failed
    attempts it has printed one line and slept 5 s per failure and has
    returned nothing, and it returns the device of the first attempt that
    succeeds, ignoring whatever would come after. *)
Theorem open_display_blocks_until_success (failures : list exn) :
  open_display (map Raise failures)
  = (flat_map (fun e => [EvPrint (InitFailed e); EvSleep 5]) failures, None)
  /\ forall device later,
      open_display (map Raise failures ++ Ok device :: later)
      = (flat_map (fun e => [EvPrint (InitFailed e); EvSleep 5]) failures
           ++ [EvAcquire device],
         Some device).
Proof.
  split.
  - induction failures as [|e rest IH]; [reflexivity|].
    cbn [map open_display flat_map app]. now rewrite IH.
  - intros device later.
    induction failures as [|e rest IH]; [reflexivity|].
    cbn [map app open_display flat_map]. now rewrite IH.
Qed.

(** X18: as long as no attempt to open the display has succeeded, the
    program samples nothing and draws nothing: its trace consists of the
    retry messages and 5 s sleeps only, whatever the host does. *)
Theorem nothing_drawn_before_acquisition
    (py_int : pystr -> result Z) (py_float : pystr -> result Q)
    (cfg : config) (measure : pystr -> Q)
    (failures : list exn) (ws : list host) :
  let trace := program py_int py_float cfg measure (map Raise failures) ws in
  trace = flat_map (fun e => [EvPrint (InitFailed e); EvSleep 5]) failures /\
  filter is_frame trace = [] /\
  filter is_acquire trace = [].
Proof.
  intros trace.
  assert (Ht : trace
               = flat_map (fun e => [EvPrint (InitFailed e); EvSleep 5]) failures).
  { unfold trace, program.
    assert (Ho : open_display (map Raise failures)
                 = (flat_map (fun e => [EvPrint (InitFailed e); EvSleep 5])
                             failures, None)).
    { clear. induction failures as [|e rest IH]; [reflexivity|].
      cbn [map open_display flat_map app]. now rewrite IH. }
    now rewrite Ho. }
  rewrite Ht. repeat split.
  - clear. induction failures as [|e rest IH]; [reflexivity | exact IH].
  - clear. induction failures as [|e rest IH]; [reflexivity | exact IH].
Qed.

(** X19: an iteration flushes a frame to the display exactly when
    [cpu_usage_percent] and [mem_usage_percent] both return and the flush
    itself succeeds; [get_ip], [read_temp_c] and [disk_usage_percent]
    never prevent a frame. *)
Theorem frame_drawn_iff_samplers_and_flush_succeed
    (py_int : pystr -> result Z) (py_float : pystr -> result Q)
    (cfg : config) (measure : pystr -> Q) (device : handle) (w : host) :
  (exists calls,
      In (EvDisplay device calls)
         (iteration py_int py_float cfg measure device w)) <->
  (exists c, cpu_usage_percent py_int w = Ok c) /\
  (exists m, mem_usage_percent py_int w = Ok m) /\
  (exists u, canvas_flush w = Ok u).
Proof.
  split.
  - intros [calls Hin].
    destruct (sample py_int py_float cfg w) as [s|e] eqn:Hs.
    + destruct (canvas_flush w) as [u|e] eqn:Hf.
      * unfold sample in Hs.
        destruct (cpu_usage_percent py_int w) as [c|e]; [|discriminate].
        cbn [bind] in Hs.
        destruct (mem_usage_percent py_int w) as [m|e]; [|discriminate].
        repeat split; eexists; reflexivity.
      * rewrite (iteration_fault py_int py_float cfg measure device w s e Hs Hf)
          in Hin.
        destruct Hin as [H | [H | [H | [H | []]]]]; discriminate.
    + rewrite (iteration_sample_error py_int py_float cfg measure device w e Hs)
        in Hin.
      apply in_app_or in Hin. destruct Hin as [Hin | Hin].
      * destruct (cpu_sample_sleep_cases py_int w) as [Hc | Hc];
          rewrite Hc in Hin.
        -- destruct Hin as [H | []]; discriminate.
        -- destruct Hin.
      * destruct Hin as [H | [H | []]]; discriminate.
  - intros ([c Hc] & [m Hm] & [u Hu]).
    assert (Hs : exists s, sample py_int py_float cfg w = Ok s).
    { unfold sample. rewrite Hc. cbn [bind]. rewrite Hm. cbn [bind].
      eexists; reflexivity. }
    destruct Hs as [s Hs].
    exists (canvas_block measure (MOUNT cfg) s).
    rewrite (iteration_frame py_int py_float cfg measure device w s u Hs Hu).
    right; left; reflexivity.
Qed.






